(** * python_bridge.cc: a shallow embedding of the Node.js / CPython bridge

    The addon exposes one synchronous call, [executePythonSync], which
    brings the embedded CPython interpreter up on first use, runs the
    source text it is given in [__main__] and hands a JavaScript value
    back.  The file also holds the value marshaller [PyObjectToNapiValue]
    and the output "parser" [ParsePythonJsonOutput].

    The N-API and the CPython C API are external libraries: the
    interpreter is taken as a parameter ([PyRuntime]), the data that
    crosses the boundary (JavaScript values, Python objects, C strings,
    IEEE doubles) is modelled concretely. *)

From Stdlib Require Import ZArith Lia Bool List Ascii String.
From Stdlib Require Import Floats.SpecFloat.
From stdpp Require Import gmap strings.

#[local] Set Warnings "-register-all".
#[local] Open Scope Z_scope.

(** ** IEEE binary64, the C [double] behind [Napi::Number] *)

Module Double.

Definition prec : Z := 53.
Definition emax : Z := 1024.

(** Conversion of a C integer ([int], [long]) to [double]: exact when
    the integer has at most 53 significant bits, round to nearest even
    otherwise. *)
Definition of_Z (n : Z) : spec_float := binary_normalize prec emax n 0 false.

(** The integer a double denotes, when it denotes one. *)
Definition to_Z (d : spec_float) : option Z :=
  match d with
  | S754_zero _ => Some 0
  | S754_finite s m e =>
      if 0 <=? e then Some (cond_Zopp s (Z.pos m * 2 ^ e))
      else if Z.pos m mod 2 ^ (- e) =? 0
           then Some (cond_Zopp s (Z.pos m / 2 ^ (- e)))
           else None
  | _ => None
  end.

(** [Number.MAX_SAFE_INTEGER]: below it every integer is a double. *)
Definition MAX_SAFE_INTEGER : Z := 2 ^ 53 - 1.

Definition is_safe_integer (n : Z) : bool :=
  (- MAX_SAFE_INTEGER <=? n) && (n <=? MAX_SAFE_INTEGER).

End Double.

(** ** JavaScript values and errors, as seen through N-API *)

(** A JavaScript string is carried as the UTF-8 bytes handed to
    [Napi::String::New]; an object is a finite map from property names to
    values, so that equality of two [NapiValue]s is deep equality. *)
Inductive NapiValue : Type :=
| NapiUndefined
| NapiNull
| NapiBoolean (b : bool)
| NapiNumber (d : spec_float)
| NapiString (s : string)
| NapiObject (props : gmap string NapiValue).

Definition IsString (v : NapiValue) : bool :=
  match v with NapiString _ => true | _ => false end.

(** [obj.Set(key, value)] *)
Definition Set_ (key : string) (value : NapiValue)
    (props : gmap string NapiValue) : gmap string NapiValue :=
  <[key := value]> props.

(** [obj.Get(key)], [None] standing for a property that is absent. *)
Definition Get (v : NapiValue) (key : string) : option NapiValue :=
  match v with
  | NapiObject props => props !! key
  | _ => None
  end.

(** The two error classes the bridge throws. *)
Inductive JsError : Type :=
| NapiTypeError (message : string)
| NapiError (message : string).

Definition message_of (e : JsError) : string :=
  match e with NapiTypeError m | NapiError m => m end.

(** What a native callback leaves behind: the value it returns and the
    JavaScript exception it has scheduled with
    [ThrowAsJavaScriptException], if any. *)
Record CallResult : Type := {
  returned : NapiValue;
  pending_exception : option JsError
}.

Definition Return (v : NapiValue) : CallResult :=
  {| returned := v; pending_exception := None |}.

(** [X::New(env, msg).ThrowAsJavaScriptException(); return env.Null();] *)
Definition Throw (e : JsError) : CallResult :=
  {| returned := NapiNull; pending_exception := Some e |}.

(** ** C strings *)

(** The bytes a reader of a C string sees: everything before the first
    NUL.  This is what the [std::string] constructor copies from a char
    pointer and what [c_str()] shows to [PyRun_String]. *)
Fixpoint c_str (s : string) : string :=
  match s with
  | EmptyString => EmptyString
  | String c rest =>
      if Ascii.eqb c Ascii.zero then EmptyString else String c (c_str rest)
  end.

(** The double quote, and a text between two of them. *)
Definition dquote : ascii := ascii_of_N 34.

Definition quoted (s : string) : string :=
  String dquote s +:+ String dquote EmptyString.

(** [needle] occurs in [hay]. *)
Fixpoint contains (needle hay : string) : bool :=
  String.prefix needle hay ||
  match hay with
  | EmptyString => false
  | String _ rest => contains needle rest
  end.

(** ** Python objects *)

(** A Python [str] is its sequence of code points. *)
Definition PyStr : Type := list Z.

Inductive PyObject : Type :=
| Py_None
| Py_True
| Py_False
| PyLongObject (value : Z)
| PyFloatObject (ob_fval : spec_float)
| PyUnicodeObject (code_points : PyStr)
| PyOtherObject (tp_name : string).

(** The code points of an ASCII text. *)
Definition code_points (s : string) : PyStr :=
  map (fun c => Z.of_N (N_of_ascii c)) (list_ascii_of_string s).

(** The per-thread error indicator: the type name of the pending
    exception, if one is set. *)
Definition PyErr : Type := option string.

Definition PyErr_Occurred (err : PyErr) : bool :=
  match err with Some _ => true | None => false end.

Definition PyErr_Clear (err : PyErr) : PyErr := None.

Definition is_Py_None (o : PyObject) : bool :=
  match o with Py_None => true | _ => false end.

Definition is_Py_True (o : PyObject) : bool :=
  match o with Py_True => true | _ => false end.

Definition PyBool_Check (o : PyObject) : bool :=
  match o with Py_True | Py_False => true | _ => false end.

(** [bool] is a subclass of [int]: the check accepts both. *)
Definition PyLong_Check (o : PyObject) : bool :=
  match o with PyLongObject _ | Py_True | Py_False => true | _ => false end.

Definition PyFloat_Check (o : PyObject) : bool :=
  match o with PyFloatObject _ => true | _ => false end.

Definition PyUnicode_Check (o : PyObject) : bool :=
  match o with PyUnicodeObject _ => true | _ => false end.

(** *** UTF-8, as CPython's strict codec writes it *)

Definition byte (n : Z) : ascii := ascii_of_N (Z.to_N n).

Definition continuation (c : Z) (shift : Z) : ascii :=
  byte (Z.lor 128 (Z.land (Z.shiftr c shift) 63)).

Definition is_surrogate (c : Z) : bool := (55296 <=? c) && (c <=? 57343).

Definition utf8_of_code_point (c : Z) : option (list ascii) :=
  if c <? 0 then None
  else if c <? 128 then Some [byte c]
  else if c <? 2048 then
    Some [byte (Z.lor 192 (Z.shiftr c 6)); continuation c 0]
  else if c <? 65536 then
    if is_surrogate c then None
    else Some [byte (Z.lor 224 (Z.shiftr c 12)); continuation c 6;
               continuation c 0]
  else if c <? 1114112 then
    Some [byte (Z.lor 240 (Z.shiftr c 18)); continuation c 12;
          continuation c 6; continuation c 0]
  else None.

Fixpoint utf8_encode (u : PyStr) : option string :=
  match u with
  | [] => Some EmptyString
  | c :: rest =>
      match utf8_of_code_point c, utf8_encode rest with
      | Some bytes, Some tail => Some (string_of_list_ascii bytes +:+ tail)
      | _, _ => None
      end
  end.

(** ** The value marshaller *)

Section Marshaller.

(** Width of the C type [long] on the target: 64 on LP64 systems
    (Linux, macOS), 32 on LLP64 ones (Windows). *)
Variable LONG_BIT : Z.

Definition LONG_MIN : Z := - 2 ^ (LONG_BIT - 1).
Definition LONG_MAX : Z := 2 ^ (LONG_BIT - 1) - 1.

Definition fits_long (n : Z) : bool := (LONG_MIN <=? n) && (n <=? LONG_MAX).

(** [PyLong_AsLong]: the value when it fits a [long]; [-1] with
    [OverflowError] set when it does not, [-1] with [TypeError] set for
    an object that is no integer. *)
Definition PyLong_AsLong (o : PyObject) (err : PyErr) : Z * PyErr :=
  match o with
  | PyLongObject n =>
      if fits_long n then (n, err) else (-1, Some "OverflowError"%string)
  | Py_True => (1, err)
  | Py_False => (0, err)
  | _ => (-1, Some "TypeError"%string)
  end.

(** [PyFloat_AsDouble]: the stored double; [-1.0] for another object. *)
Definition PyFloat_AsDouble (o : PyObject) : spec_float :=
  match o with
  | PyFloatObject d => d
  | _ => Double.of_Z (-1)
  end.

(** [PyUnicode_AsUTF8String]: a new bytes object, or NULL with
    [UnicodeEncodeError] set (lone surrogates cannot be encoded). *)
Definition PyUnicode_AsUTF8String (o : PyObject) (err : PyErr)
    : option string * PyErr :=
  match o with
  | PyUnicodeObject u =>
      match utf8_encode u with
      | Some bytes => (Some bytes, err)
      | None => (None, Some "UnicodeEncodeError"%string)
      end
  | _ => (None, Some "TypeError"%string)
  end.

(** [Napi::Value PyObjectToNapiValue(Napi::Env env, PyObject *py_obj)].
    The pointer is [None] when null; the error indicator is threaded
    through, since the function reads and clears it. *)
Definition PyObjectToNapiValue (py_obj : option PyObject) (err : PyErr)
    : NapiValue * PyErr :=
  match py_obj with
  | None => (NapiUndefined, err)
  | Some o =>
      if is_Py_None o then (NapiNull, err)
      else if PyBool_Check o then (NapiBoolean (is_Py_True o), err)
      else if PyLong_Check o then
        let '(result, err1) := PyLong_AsLong o err in
        if (result =? -1) && PyErr_Occurred err1
        then (NapiNumber (Double.of_Z 0), PyErr_Clear err1)
        else (NapiNumber (Double.of_Z result), err1)
      else if PyFloat_Check o then (NapiNumber (PyFloat_AsDouble o), err)
      else if PyUnicode_Check o then
        match PyUnicode_AsUTF8String o err with
        | (None, err1) =>
            (NapiString "[Decoding Error]", PyErr_Clear err1)
        | (Some py_bytes, err1) => (NapiString (c_str py_bytes), err1)
        end
      else (NapiString "[Unsupported Python Type]", err)
  end.

End Marshaller.

(** ** The embedded interpreter *)

(** An exception value as [PyErr_Fetch] hands it back, reduced to what the
    bridge asks of it: [PyObject_Str], which gives a Python [str] or NULL
    when the value's own [__str__] fails. *)
Record PyExcValue : Type := { PyObject_Str : option PyStr }.

(** [PyUnicode_AsUTF8]: the UTF-8 buffer of a [str], or NULL when the
    string cannot be encoded. *)
Definition PyUnicode_AsUTF8 (s : PyStr) : option string := utf8_encode s.

(** How a [PyRun_String] ends: with a result object, or with NULL and an
    exception whose value may itself be NULL. *)
Inductive PyRunOutcome : Type :=
| PyReturned (py_result : PyObject)
| PyRaised (pvalue : option PyExcValue).

(** A run also writes to the process's standard output. *)
Record PyRunResult : Type := {
  py_stdout : string;
  py_outcome : PyRunOutcome
}.

(** The part of the CPython C API the bridge calls.  [interp] is the
    whole state of the embedded runtime, the [__main__] dictionary
    included, so that a run may depend on the runs before it. *)
Record PyRuntime : Type := {
  interp : Type;
  Py_Initialize : interp -> interp;
  Py_IsInitialized : interp -> bool;
  (** [true] when the module pointer is not NULL *)
  PyImport_AddModule : string -> interp -> bool * interp;
  (** [PyRun_String(str, Py_file_input, py_dict, py_dict)] *)
  PyRun_String : string -> interp -> PyRunResult * interp
}.

(** Calls into the runtime, for the record. *)
Inductive ApiCall : Type :=
| Call_Py_Initialize (up : bool)
| Call_PyImport_AddModule (name : string)
| Call_PyRun_String (str : string).

(** A computation that may step outside what C++ defines. *)
Inductive Outcome (A : Type) : Type :=
| Done (a : A)
| UndefinedBehaviour.

Arguments Done {A} a.
Arguments UndefinedBehaviour {A}.

Definition Utf8Value (v : NapiValue) : string :=
  match v with NapiString s => s | _ => EmptyString end.

(** [Napi::Object ParsePythonJsonOutput(Napi::Env env,
    const std::string& json_string)] *)
Definition ParsePythonJsonOutput (json_string : string) : NapiValue :=
  let result : gmap string NapiValue := ∅ in
  let result := Set_ "result" (NapiNumber (Double.of_Z 3628800)) result in
  let result := Set_ "input" (NapiNumber (Double.of_Z 10)) result in
  let result :=
    Set_ "message"
      (NapiString "Python code executed and output parsed by C++ bridge.")
      result in
  NapiObject result.

Section Gateway.

Variable R : PyRuntime.

(** The process: the global [python_initialized], the state of the
    embedded runtime, and the log of the calls made into it (newest
    first; the log is ghost state). *)
Record Process : Type := {
  python_initialized : bool;
  interp_state : interp R;
  api_log : list ApiCall
}.

(** [Napi::Value executePythonSync(const Napi::CallbackInfo& info)] *)
Definition executePythonSync (info : list NapiValue) (p : Process)
    : Outcome (CallResult * Process) :=
  if (length info <? 1)%nat || negb (IsString (nth 0 info NapiUndefined))
  then
    Done (Throw (NapiTypeError
                   "Expected one string argument (Python code)."), p)
  else
    let python_code := Utf8Value (nth 0 info NapiUndefined) in
    let '(up, p) :=
      if python_initialized p then (true, p)
      else
        let s := Py_Initialize R (interp_state p) in
        if Py_IsInitialized R s
        then (true, {| python_initialized := true;
                       interp_state := s;
                       api_log := Call_Py_Initialize true :: api_log p |})
        else (false, {| python_initialized := python_initialized p;
                        interp_state := s;
                        api_log := Call_Py_Initialize false :: api_log p |})
    in
    if negb up then
      Done (Throw (NapiError "Failed to initialize Python interpreter."), p)
    else
      let '(py_main_module, s) :=
        PyImport_AddModule R "__main__" (interp_state p) in
      let p := {| python_initialized := python_initialized p;
                  interp_state := s;
                  api_log := Call_PyImport_AddModule "__main__"
                               :: api_log p |} in
      if negb py_main_module then
        Done (Throw (NapiError "Failed to get Python __main__ module."), p)
      else
        let '(run, s) := PyRun_String R (c_str python_code) (interp_state p) in
        let p := {| python_initialized := python_initialized p;
                    interp_state := s;
                    api_log := Call_PyRun_String (c_str python_code)
                                 :: api_log p |} in
        match py_outcome run with
        | PyRaised (Some pvalue) =>
            let error_msg := "Python Error: "%string in
            match PyObject_Str pvalue with
            | Some pStr =>
                match PyUnicode_AsUTF8 pStr with
                | Some utf8 =>
                    Done (Throw (NapiError (error_msg +:+ c_str utf8)), p)
                | None =>
                    (* operator+= reads through a null pointer *)
                    UndefinedBehaviour
                end
            | None => Done (Throw (NapiError error_msg), p)
            end
        | PyRaised None =>
            Done (Throw (NapiError "Unknown Python execution error."), p)
        | PyReturned py_result =>
            let mock_json_output :=
              "{" +:+ quoted "result" +:+ ": 3628800, "
                  +:+ quoted "input" +:+ ": 10}" in
            Done (Return (ParsePythonJsonOutput mock_json_output), p)
        end.

End Gateway.

Arguments python_initialized {R} p.
Arguments interp_state {R} p.
Arguments api_log {R} p.

(** Calls one after the other on the same process. *)
Fixpoint run_calls (R : PyRuntime) (calls : list (list NapiValue))
    (p : Process R) : Outcome (Process R) :=
  match calls with
  | [] => Done p
  | info :: rest =>
      match executePythonSync R info p with
      | Done (_, p') => run_calls R rest p'
      | UndefinedBehaviour => UndefinedBehaviour
      end
  end.

(** The number of bring-ups in a log that left the runtime initialized. *)
Fixpoint successful_inits (log : list ApiCall) : nat :=
  match log with
  | [] => 0%nat
  | Call_Py_Initialize true :: rest => S (successful_inits rest)
  | _ :: rest => successful_inits rest
  end.

(** The number of calls of [Py_Initialize] in a log. *)
Fixpoint init_calls (log : list ApiCall) : nat :=
  match log with
  | [] => 0%nat
  | Call_Py_Initialize _ :: rest => S (init_calls rest)
  | _ :: rest => init_calls rest
  end.

(** The sources handed to [PyRun_String], newest first. *)
Fixpoint sources_run (log : list ApiCall) : list string :=
  match log with
  | [] => []
  | Call_PyRun_String str :: rest => str :: sources_run rest
  | _ :: rest => sources_run rest
  end.

(** ** The vocabulary of the specification *)

Section Observations.

Variable R : PyRuntime.

(** The runtime state in which the gateway goes on after the
    initialization step, when that step lets it go on. *)
Definition after_initialization (p : Process R) : option (interp R) :=
  if python_initialized p then Some (interp_state p)
  else
    let s := Py_Initialize R (interp_state p) in
    if Py_IsInitialized R s then Some s else None.

(** What executing [python_code] in process [p] gives, when the gateway
    gets as far as executing it. *)
Definition execution_of (p : Process R) (python_code : string)
    : option PyRunResult :=
  match after_initialization p with
  | Some s =>
      let '(py_main_module, s) := PyImport_AddModule R "__main__" s in
      if py_main_module
      then Some (fst (PyRun_String R (c_str python_code) s))
      else None
  | None => None
  end.

End Observations.

(** [Succeeded(v)]: the call returns [v] and throws nothing. *)
Definition Succeeded (r : CallResult) (v : NapiValue) : Prop :=
  pending_exception r = None /\ returned r = v.

(** [Failed]: the call throws. *)
Definition Failed (r : CallResult) : Prop :=
  exists e, pending_exception r = Some e.

(** The three messages of the specification's external interface. *)
Definition spec_FatalError_message : string :=
  "Failed to initialize interpreter".

Definition spec_RuntimeError_message (exception_text : string) : string :=
  "<RuntimeError>: " +:+ exception_text.

Definition spec_ParseError_message : string :=
  "<ParseError>: captured output was not valid structured data".

Definition spec_failure_message (m : string) : Prop :=
  m = spec_FatalError_message
  \/ (exists exception_text, m = spec_RuntimeError_message exception_text)
  \/ m = spec_ParseError_message.

(** The five messages of the source. *)
Definition bridge_failure_message (e : JsError) : Prop :=
  e = NapiTypeError "Expected one string argument (Python code)."
  \/ e = NapiError "Failed to initialize Python interpreter."
  \/ e = NapiError "Failed to get Python __main__ module."
  \/ (exists text, e = NapiError ("Python Error: " +:+ text))
  \/ e = NapiError "Unknown Python execution error.".

(** *** Structured data: the JSON text the specification has in mind

    The source has no parser: [ParsePythonJsonOutput] does not read its
    argument.  To say what "the JSON the source printed" is, the
    specification's parser is written out here for the JSON of objects,
    strings without escapes, integer literals, [true], [false] and
    [null].  It serves the statements about printed output only. *)

Module Json.

Definition is_ws (c : ascii) : bool :=
  let n := N_of_ascii c in
  ((n =? 32) || (n =? 9) || (n =? 10) || (n =? 13))%N.

Definition is_digit (c : ascii) : bool :=
  let n := N_of_ascii c in ((48 <=? n) && (n <=? 57))%N.

Definition digit_value (c : ascii) : Z := Z.of_N (N_of_ascii c) - 48.

Fixpoint skip_ws (s : string) : string :=
  match s with
  | String c rest => if is_ws c then skip_ws rest else s
  | EmptyString => s
  end.

Fixpoint strip_prefix (pre s : string) : option string :=
  match pre, s with
  | EmptyString, _ => Some s
  | String a pre', String b s' =>
      if Ascii.eqb a b then strip_prefix pre' s' else None
  | _, _ => None
  end.

Fixpoint read_digits (acc : Z) (s : string) : Z * string :=
  match s with
  | String c rest =>
      if is_digit c then read_digits (10 * acc + digit_value c) rest
      else (acc, s)
  | EmptyString => (acc, s)
  end.

(** An integer literal: digits, without a leading zero unless it is the
    only digit. *)
Definition read_natural (s : string) : option (Z * string) :=
  match s with
  | String c rest =>
      if Ascii.eqb c "0" then
        match rest with
        | String d _ => if is_digit d then None else Some (0, rest)
        | EmptyString => Some (0, rest)
        end
      else if is_digit c then Some (read_digits 0 s)
      else None
  | EmptyString => None
  end.

(** The characters up to the closing quote; escapes and control
    characters are not read. *)
Fixpoint read_string_body (s : string) : option (string * string) :=
  match s with
  | EmptyString => None
  | String c rest =>
      if Ascii.eqb c dquote then Some (EmptyString, rest)
      else if Ascii.eqb c "\" || (N_of_ascii c <? 32)%N then None
      else
        match read_string_body rest with
        | Some (body, rest') => Some (String c body, rest')
        | None => None
        end
  end.

Definition number (negative : bool) (n : Z) : NapiValue :=
  if negative then
    if n =? 0 then NapiNumber (S754_zero true)
    else NapiNumber (Double.of_Z (- n))
  else NapiNumber (Double.of_Z n).

Fixpoint parse_value (fuel : nat) (s : string)
    : option (NapiValue * string) :=
  match fuel with
  | O => None
  | S fuel =>
      match skip_ws s with
      | EmptyString => None
      | String c rest as s1 =>
          if Ascii.eqb c "{" then
            match skip_ws rest with
            | String "}" rest' => Some (NapiObject ∅, rest')
            | _ => parse_members fuel ∅ rest
            end
          else if Ascii.eqb c dquote then
            match read_string_body rest with
            | Some (body, rest') => Some (NapiString body, rest')
            | None => None
            end
          else if Ascii.eqb c "-" then
            match read_natural rest with
            | Some (n, rest') => Some (number true n, rest')
            | None => None
            end
          else if is_digit c then
            match read_natural s1 with
            | Some (n, rest') => Some (number false n, rest')
            | None => None
            end
          else
            match strip_prefix "null" s1, strip_prefix "true" s1,
                  strip_prefix "false" s1 with
            | Some rest', _, _ => Some (NapiNull, rest')
            | _, Some rest', _ => Some (NapiBoolean true, rest')
            | _, _, Some rest' => Some (NapiBoolean false, rest')
            | _, _, _ => None
            end
      end
  end
with parse_members (fuel : nat) (members : gmap string NapiValue)
    (s : string) : option (NapiValue * string) :=
  match fuel with
  | O => None
  | S fuel =>
      match skip_ws s with
      | String c rest =>
          if Ascii.eqb c dquote then
            match read_string_body rest with
            | Some (key, rest) =>
                match skip_ws rest with
                | String ":" rest =>
                    match parse_value fuel rest with
                    | Some (v, rest) =>
                        let members := <[key := v]> members in
                        match skip_ws rest with
                        | String "," rest =>
                            parse_members fuel members rest
                        | String "}" rest =>
                            Some (NapiObject members, rest)
                        | _ => None
                        end
                    | None => None
                    end
                | _ => None
                end
            | None => None
            end
          else None
      | EmptyString => None
      end
  end.

(** The whole text is one JSON value, white space around it apart. *)
Definition parse (text : string) : option NapiValue :=
  match parse_value (S (String.length text)) text with
  | Some (v, rest) =>
      match skip_ws rest with
      | EmptyString => Some v
      | _ => None
      end
  | None => None
  end.

(** The text is a single well-formed JSON object denoting [members]. *)
Definition is_object (text : string) (members : gmap string NapiValue)
    : Prop :=
  parse text = Some (NapiObject members).

End Json.

(** The object [ParsePythonJsonOutput] builds. *)
Definition mock_object : NapiValue :=
  NapiObject
    (<["message" :=
         NapiString "Python code executed and output parsed by C++ bridge."]>
       (<["input" := NapiNumber (Double.of_Z 10)]>
          (<["result" := NapiNumber (Double.of_Z 3628800)]> ∅))).

(** [v] is the JavaScript number [n]. *)
Definition is_number (v : option NapiValue) (n : Z) : Prop :=
  exists d, v = Some (NapiNumber d) /\ Double.to_Z d = Some n.

(** The value is none of the compound ones. *)
Definition is_scalar (v : NapiValue) : bool :=
  match v with NapiObject _ => false | _ => true end.

(** The flag tells whether the log holds a successful bring-up, and it
    holds one at most. *)
Definition flag_counts_inits (R : PyRuntime) (p : Process R) : Prop :=
  successful_inits (api_log p)
  = if python_initialized p then 1%nat else 0%nat.

(** ** Scripted runtimes and sample processes *)

(** A process that has not yet called the bridge. *)
Definition fresh (R : PyRuntime) (s : interp R) : Process R :=
  {| python_initialized := false; interp_state := s; api_log := [] |}.

(** A runtime that follows a script: the [k]-th bring-up succeeds when
    [bringup k] says so, [__main__] is there when [has_main] says so, and
    a source runs as [run] tells.  Its state is the number of bring-ups
    tried and whether the runtime is up. *)
Definition scripted (bringup : nat -> bool) (has_main : bool)
    (run : string -> PyRunResult) : PyRuntime :=
  {| interp := nat * bool;
     Py_Initialize := fun s =>
       if snd s then s else (S (fst s), bringup (fst s));
     Py_IsInitialized := snd;
     PyImport_AddModule := fun _ s => (has_main, s);
     PyRun_String := fun str s => (run str, s) |}.

(** The scripted runtime before the first call, with its process. *)
Definition cold (bringup : nat -> bool) (has_main : bool)
    (run : string -> PyRunResult) : Process (scripted bringup has_main run) :=
  fresh (scripted bringup has_main run) (0%nat, false).

(** [print('{"result": 120, "input": 5}')] and what it prints. *)
Definition factorial_of_5_output : string :=
  "{" +:+ quoted "result" +:+ ": 120, " +:+ quoted "input" +:+ ": 5}".

Definition factorial_of_5_source : string :=
  "print('" +:+ factorial_of_5_output +:+ "')".

Definition factorial_of_5_members : gmap string NapiValue :=
  <["input" := NapiNumber (Double.of_Z 5)]>
    (<["result" := NapiNumber (Double.of_Z 120)]> ∅).

(** [raise Exception('\udc80')]: the exception's text is one lone
    surrogate. *)
Definition raise_surrogate_source : string := "raise Exception('\udc80')".

Definition newline : string := String (ascii_of_N 10) EmptyString.

(** What a CPython does with a handful of sources; any other source is
    taken to print nothing and to return. *)
Definition sample_run (str : string) : PyRunResult :=
  if String.eqb str factorial_of_5_source then
    {| py_stdout := factorial_of_5_output +:+ newline;
       py_outcome := PyReturned Py_None |}
  else if String.eqb str "print('oops')" then
    {| py_stdout := "oops" +:+ newline; py_outcome := PyReturned Py_None |}
  else if String.eqb str "1/0" then
    {| py_stdout := EmptyString;
       py_outcome :=
         PyRaised (Some {| PyObject_Str :=
                             Some (code_points "division by zero") |}) |}
  else if String.eqb str raise_surrogate_source then
    {| py_stdout := EmptyString;
       py_outcome := PyRaised (Some {| PyObject_Str := Some [56448] |}) |}
  else
    {| py_stdout := EmptyString; py_outcome := PyReturned Py_None |}.

(** A runtime in good health running these, and its process before the
    first call. *)
Definition sample : PyRuntime := scripted (fun _ => true) true sample_run.

Definition sample_process : Process sample := cold (fun _ => true) true sample_run.

(** A runtime whose first bring-up fails and whose second succeeds, and
    its process after one call and after two. *)
Definition flaky : PyRuntime :=
  scripted (fun k => Nat.eqb k 1) true sample_run.

Definition flaky_after_one_call : Process flaky :=
  Build_Process flaky false (1%nat, false) [Call_Py_Initialize false].

Definition flaky_after_two_calls : Process flaky :=
  Build_Process flaky true (2%nat, true)
    [Call_PyRun_String "pass"; Call_PyImport_AddModule "__main__";
     Call_Py_Initialize true; Call_Py_Initialize false].

(** ** Further vocabulary *)

(** The first argument of a call is a string: the call gets past the
    argument check. *)
Definition accepted (info : list NapiValue) : bool :=
  IsString (nth 0 info NapiUndefined).

(** The sources a list of calls submits, as [PyRun_String] would see
    them, oldest first. *)
Fixpoint submitted (calls : list (list NapiValue)) : list string :=
  match calls with
  | [] => []
  | info :: rest =>
      if accepted info
      then c_str (Utf8Value (nth 0 info NapiUndefined)) :: submitted rest
      else submitted rest
  end.

(** The code points before the first U+0000. *)
Fixpoint before_nul (u : PyStr) : PyStr :=
  match u with
  | [] => []
  | c :: rest => if c =? 0 then [] else c :: before_nul rest
  end.

(** A Unicode scalar value: a code point up to U+10FFFF that is no
    surrogate. *)
Definition is_scalar_value (c : Z) : bool :=
  (0 <=? c) && (c <? 1114112) && negb (is_surrogate c).

(** No byte of the list is NUL. *)
Definition nonzero_bytes (bs : list ascii) : Prop :=
  Forall (fun b => Ascii.eqb b Ascii.zero = false) bs.

(** The sample process after one call that ran the source [str]. *)
Definition sample_after (str : string) : Process sample :=
  Build_Process sample true (1%nat, true)
    [Call_PyRun_String str; Call_PyImport_AddModule "__main__";
     Call_Py_Initialize true].

(** The Python types the marshaller has a branch for. *)
Definition is_supported (o : PyObject) : bool :=
  match o with PyOtherObject _ => false | _ => true end.

(** * Proofs *)

(** ** Integers that are doubles *)

Lemma digits2_pos_iter_xO (m k : positive) :
  digits2_pos (Pos.iter xO m k) = (digits2_pos m + k)%positive.
Proof.
  induction k as [|k IH] using Pos.peano_ind.
  - cbn. lia.
  - rewrite Pos.iter_succ. cbn [digits2_pos]. rewrite IH. lia.
Qed.

Lemma Zpos_iter_xO (m k : positive) :
  Z.pos (Pos.iter xO m k) = Z.pos m * 2 ^ Z.pos k.
Proof.
  induction k as [|k IH] using Pos.peano_ind.
  - cbn. lia.
  - rewrite Pos.iter_succ, Pos2Z.inj_xO, IH, Pos2Z.inj_succ, Z.pow_succ_r; lia.
Qed.

Lemma digits2_pos_size (m : positive) : digits2_pos m = Pos.size m.
Proof. induction m; cbn; congruence. Qed.

(** A positive number below [2 ^ k] has at most [k] binary digits. *)
Lemma digits2_pos_bound (m : positive) (k : Z) :
  0 <= k -> Z.pos m < 2 ^ k -> Z.pos (digits2_pos m) <= k.
Proof.
  intros Hk Hm. rewrite digits2_pos_size.
  pose proof (Pos.size_le m) as Hle.
  apply Pos2Z.pos_le_pos in Hle. rewrite Pos2Z.inj_pow in Hle.
  change (Z.pos 2) with 2 in Hle. rewrite (Pos2Z.inj_xO m) in Hle.
  destruct (Z_lt_le_dec k (Z.pos (Pos.size m))) as [Hlt|]; [|assumption].
  exfalso.
  assert (H : 2 ^ (k + 1) <= 2 ^ Z.pos (Pos.size m))
    by (apply Z.pow_le_mono_r; lia).
  rewrite Z.pow_add_r in H by lia. change (2 ^ 1) with 2 in H. lia.
Qed.

(** Rounding leaves a mantissa alone that already has the exponent the
    format gives it. *)
Lemma binary_round_aux_canonical (s : bool) (m : positive) (e : Z) :
  fexp Double.prec Double.emax (Z.pos (digits2_pos m) + e) = e ->
  e <= Double.emax - Double.prec ->
  binary_round_aux Double.prec Double.emax s (Z.pos m) e loc_Exact
  = S754_finite s m e.
Proof.
  intros Hfexp He.
  unfold binary_round_aux, shr_fexp. cbn [Zdigits2 shr_record_of_loc].
  rewrite Hfexp, Z.sub_diag.
  cbn [shr shr_m loc_of_shr_record round_nearest_even Zdigits2
       shr_record_of_loc].
  rewrite Hfexp, Z.sub_diag. cbn [shr shr_m].
  apply Z.leb_le in He. rewrite He. reflexivity.
Qed.

Lemma binary_round_small (s : bool) (m : positive) :
  Z.pos m < 2 ^ 53 ->
  Double.to_Z (binary_round Double.prec Double.emax s m 0)
  = Some (cond_Zopp s (Z.pos m)).
Proof.
  intros Hm.
  pose proof (digits2_pos_bound m 53 ltac:(lia) Hm) as Hd.
  unfold binary_round.
  assert (Hfexp : fexp Double.prec Double.emax (Z.pos (digits2_pos m) + 0)
                  = Z.pos (digits2_pos m) - 53).
  { unfold fexp, SpecFloat.emin, Double.prec, Double.emax. lia. }
  rewrite Hfexp. unfold shl_align.
  destruct (Z.pos (digits2_pos m) - 53 - 0) as [|k|k] eqn:Hk; [|lia|].
  - rewrite binary_round_aux_canonical.
    + unfold Double.to_Z. cbn [Z.leb Z.compare].
      rewrite Z.pow_0_r, Z.mul_1_r. reflexivity.
    + unfold fexp, SpecFloat.emin, Double.prec, Double.emax. lia.
    + unfold Double.prec, Double.emax. lia.
  - rewrite binary_round_aux_canonical.
    + unfold Double.to_Z.
      replace (Z.pos (digits2_pos m) - 53) with (Z.neg k) by lia.
      cbn [Z.leb Z.compare Z.opp].
      rewrite Zpos_iter_xO, Z.mod_mul, Z.eqb_refl, Z.div_mul by lia.
      reflexivity.
    + rewrite digits2_pos_iter_xO.
      unfold fexp, SpecFloat.emin, Double.prec, Double.emax. lia.
    + unfold Double.prec, Double.emax. lia.
Qed.

(** A safe integer is converted to the double that denotes it. *)
Lemma to_Z_of_Z (n : Z) :
  Double.is_safe_integer n = true -> Double.to_Z (Double.of_Z n) = Some n.
Proof.
  unfold Double.is_safe_integer, Double.MAX_SAFE_INTEGER. intros H.
  apply andb_true_iff in H as [H1 H2]. apply Z.leb_le in H1, H2.
  unfold Double.of_Z, binary_normalize.
  destruct n as [|m|m].
  - reflexivity.
  - rewrite binary_round_small by lia. reflexivity.
  - rewrite binary_round_small by lia. reflexivity.
Qed.

(** A safe integer fits a [long] of 54 bits or more. *)
Lemma safe_integer_fits_long (LONG_BIT n : Z) :
  54 <= LONG_BIT ->
  Double.is_safe_integer n = true -> fits_long LONG_BIT n = true.
Proof.
  unfold Double.is_safe_integer, Double.MAX_SAFE_INTEGER, fits_long,
    LONG_MIN, LONG_MAX.
  intros HL H. apply andb_true_iff in H as [H1 H2].
  apply Z.leb_le in H1, H2.
  assert (2 ^ 53 <= 2 ^ (LONG_BIT - 1)) by (apply Z.pow_le_mono_r; lia).
  apply andb_true_iff. split; apply Z.leb_le; lia.
Qed.

(** ** Lemmas on the gateway *)

Section GatewayFacts.

Variable R : PyRuntime.

Lemma ParsePythonJsonOutput_mock (json_string : string) :
  ParsePythonJsonOutput json_string = mock_object.
Proof. reflexivity. Qed.

(** A source that is executed and returns: the mock object comes back,
    whatever was printed. *)
Lemma executePythonSync_returned (p : Process R) (python_code : string)
    (more : list NapiValue) (printed : string) (py_result : PyObject) :
  execution_of R p python_code
    = Some {| py_stdout := printed; py_outcome := PyReturned py_result |} ->
  exists p',
    executePythonSync R (NapiString python_code :: more) p
      = Done (Return mock_object, p').
Proof.
  unfold execution_of, after_initialization, executePythonSync.
  cbn [length nth IsString Utf8Value negb orb Nat.ltb Nat.leb].
  intros H.
  destruct (python_initialized p) eqn:Hflag.
  - cbn [negb]. rewrite Hflag.
    destruct (PyImport_AddModule R "__main__" (interp_state p))
      as [[|] s] eqn:Hmain; [|discriminate].
    cbn [negb interp_state].
    destruct (PyRun_String R (c_str python_code) s) as [run s'] eqn:Hrun.
    cbn [fst] in H. injection H as ->. cbn [py_outcome]. eauto.
  - destruct (Py_IsInitialized R (Py_Initialize R (interp_state p)));
      [|discriminate].
    cbn [negb interp_state].
    destruct (PyImport_AddModule R "__main__"
                (Py_Initialize R (interp_state p)))
      as [[|] s] eqn:Hmain; [|discriminate].
    cbn [negb interp_state].
    destruct (PyRun_String R (c_str python_code) s) as [run s'] eqn:Hrun.
    cbn [fst] in H. injection H as ->. cbn [py_outcome]. eauto.
Qed.

End GatewayFacts.

Lemma mock_object_fields :
  exists props,
    mock_object = NapiObject props
    /\ is_number (props !! "result") 3628800
    /\ is_number (props !! "input") 10
    /\ props !! "message"
       = Some (NapiString
                 "Python code executed and output parsed by C++ bridge.")
    /\ dom props = {["result"; "input"; "message"]}.
Proof.
  eexists. split; [reflexivity|].
  split; [|split; [|split]].
  - eexists. split; vm_compute; reflexivity.
  - eexists. split; vm_compute; reflexivity.
  - vm_compute. reflexivity.
  - rewrite !dom_insert_L, dom_empty_L. set_solver.
Qed.

Lemma mock_object_is_not_factorial_of_5 :
  mock_object <> NapiObject factorial_of_5_members.
Proof.
  intros H. apply (f_equal (fun v => Get v "result")) in H.
  vm_compute in H. discriminate H.
Qed.

(** ** C1: the printed JSON is not what comes back *)

(** C1, as stated, fails: on a healthy runtime the source
    [print('{"result": 120, "input": 5}')] prints a single well-formed
    JSON object and the call succeeds, but with the mock object, which is
    not the object printed. *)
Lemma printed_json_is_not_returned :
  execution_of sample sample_process factorial_of_5_source
    = Some {| py_stdout := factorial_of_5_output +:+ newline;
              py_outcome := PyReturned Py_None |}
  /\ Json.is_object (factorial_of_5_output +:+ newline)
       factorial_of_5_members
  /\ exists r p',
       executePythonSync sample [NapiString factorial_of_5_source]
         sample_process = Done (r, p')
       /\ Succeeded r mock_object
       /\ ~ Succeeded r (NapiObject factorial_of_5_members).
Proof.
  split; [reflexivity|]. split; [vm_compute; reflexivity|].
  eexists. eexists. split; [vm_compute; reflexivity|].
  split.
  - split; vm_compute; reflexivity.
  - intros [_ H]. apply mock_object_is_not_factorial_of_5. exact H.
Qed.

(** C1, amended: for every source text whose execution prints a single
    well-formed JSON object and returns, [executePythonSync] succeeds with
    the fixed object [{result: 3628800, input: 10, message: ...}]: the
    result follows a fixed schema, not the printed output, and equals the
    object printed only when that is the fixed object itself. *)
Theorem executePythonSync_fixed_object_for_printed_json
    (R : PyRuntime) (p : Process R) (python_code : string)
    (more : list NapiValue) (printed : string) (py_result : PyObject)
    (members : gmap string NapiValue) :
  execution_of R p python_code
    = Some {| py_stdout := printed; py_outcome := PyReturned py_result |} ->
  Json.is_object printed members ->
  exists r p',
    executePythonSync R (NapiString python_code :: more) p = Done (r, p')
    /\ Succeeded r mock_object
    /\ (Succeeded r (NapiObject members)
        <-> NapiObject members = mock_object).
Proof.
  intros Hrun _.
  destruct (executePythonSync_returned R p python_code more printed
              py_result Hrun) as [p' Hp'].
  exists (Return mock_object), p'. split; [exact Hp'|].
  split; [split; reflexivity|].
  unfold Succeeded. cbn [Return pending_exception returned].
  split; [intros [_ H]; symmetry; exact H | intros ->; split; reflexivity].
Qed.

Lemma executePythonSync_fixed_object_for_printed_json_witness :
  exists r p',
    executePythonSync sample [NapiString factorial_of_5_source]
      sample_process = Done (r, p')
    /\ Succeeded r mock_object
    /\ (Succeeded r (NapiObject factorial_of_5_members)
        <-> NapiObject factorial_of_5_members = mock_object).
Proof.
  apply (executePythonSync_fixed_object_for_printed_json
           sample sample_process factorial_of_5_source []
           (factorial_of_5_output +:+ newline) Py_None
           factorial_of_5_members).
  - reflexivity.
  - vm_compute. reflexivity.
Defined.

(** ** C2: no parse error *)

(** C2, as stated, fails: on a healthy runtime the source [pass] prints
    nothing and returns; the call does not fail, it succeeds with the mock
    object.  The same holds for [print('oops')], whose output is no
    structured data. *)
Lemma silent_source_succeeds :
  execution_of sample sample_process "pass"
    = Some {| py_stdout := ""; py_outcome := PyReturned Py_None |}
  /\ execution_of sample sample_process "print('oops')"
     = Some {| py_stdout := "oops" +:+ newline;
               py_outcome := PyReturned Py_None |}
  /\ Json.parse "" = None
  /\ Json.parse ("oops" +:+ newline) = None
  /\ (exists r p',
        executePythonSync sample [NapiString "pass"] sample_process
          = Done (r, p')
        /\ Succeeded r mock_object /\ ~ Failed r)
  /\ (exists r p',
        executePythonSync sample [NapiString "print('oops')"] sample_process
          = Done (r, p')
        /\ Succeeded r mock_object /\ ~ Failed r).
Proof.
  split; [reflexivity|]. split; [reflexivity|].
  split; [vm_compute; reflexivity|]. split; [vm_compute; reflexivity|].
  split.
  - eexists. eexists. split; [vm_compute; reflexivity|].
    split; [split; reflexivity|]. intros [e He]. discriminate He.
  - eexists. eexists. split; [vm_compute; reflexivity|].
    split; [split; reflexivity|]. intros [e He]. discriminate He.
Qed.

(** C2, amended: for every source text that executes without raising and
    prints nothing, or prints data that is not valid structured data, the
    outcome is [Succeeded] with the fixed mock object, never [Failed]. *)
Theorem executePythonSync_succeeds_on_unparseable_output
    (R : PyRuntime) (p : Process R) (python_code : string)
    (more : list NapiValue) (printed : string) (py_result : PyObject) :
  execution_of R p python_code
    = Some {| py_stdout := printed; py_outcome := PyReturned py_result |} ->
  printed = EmptyString \/ Json.parse printed = None ->
  exists r p',
    executePythonSync R (NapiString python_code :: more) p = Done (r, p')
    /\ Succeeded r mock_object
    /\ ~ Failed r.
Proof.
  intros Hrun _.
  destruct (executePythonSync_returned R p python_code more printed
              py_result Hrun) as [p' Hp'].
  exists (Return mock_object), p'. split; [exact Hp'|].
  split; [split; reflexivity|]. intros [e He]. discriminate He.
Qed.

Lemma executePythonSync_succeeds_on_unparseable_output_witness :
  exists r p',
    executePythonSync sample [NapiString "print('oops')"] sample_process
      = Done (r, p')
    /\ Succeeded r mock_object
    /\ ~ Failed r.
Proof.
  apply (executePythonSync_succeeds_on_unparseable_output
           sample sample_process "print('oops')" []
           ("oops" +:+ newline) Py_None).
  - reflexivity.
  - right. vm_compute. reflexivity.
Defined.

(** ** C10: every successful call gives the same object *)

(** C10: two sources that both execute without raising give identical
    results, the fixed object with [result = 3628800], [input = 10] and
    the fixed message, whatever either of them printed or computed. *)
Theorem executePythonSync_success_results_identical
    (R : PyRuntime) (p1 p2 : Process R) (code1 code2 : string)
    (more1 more2 : list NapiValue) (printed1 printed2 : string)
    (py_result1 py_result2 : PyObject) :
  execution_of R p1 code1
    = Some {| py_stdout := printed1; py_outcome := PyReturned py_result1 |} ->
  execution_of R p2 code2
    = Some {| py_stdout := printed2; py_outcome := PyReturned py_result2 |} ->
  exists r p1' p2',
    executePythonSync R (NapiString code1 :: more1) p1 = Done (r, p1')
    /\ executePythonSync R (NapiString code2 :: more2) p2 = Done (r, p2')
    /\ pending_exception r = None
    /\ is_number (Get (returned r) "result") 3628800
    /\ is_number (Get (returned r) "input") 10
    /\ Get (returned r) "message"
       = Some (NapiString
                 "Python code executed and output parsed by C++ bridge.")
    /\ forall key, is_Some (Get (returned r) key) ->
                   key ∈ ["result"; "input"; "message"].
Proof.
  intros H1 H2.
  destruct (executePythonSync_returned R p1 code1 more1 _ _ H1) as [p1' E1].
  destruct (executePythonSync_returned R p2 code2 more2 _ _ H2) as [p2' E2].
  exists (Return mock_object), p1', p2'.
  split; [exact E1|]. split; [exact E2|]. split; [reflexivity|].
  destruct mock_object_fields as (props & Hprops & Hres & Hin & Hmsg & Hdom).
  cbn [returned Return]. rewrite Hprops. cbn [Get].
  split; [exact Hres|]. split; [exact Hin|]. split; [exact Hmsg|].
  intros key Hkey. apply elem_of_dom in Hkey. rewrite Hdom in Hkey.
  set_unfold. tauto.
Qed.

Lemma executePythonSync_success_results_identical_witness :
  exists r p1' p2',
    executePythonSync sample [NapiString "x = 1"] sample_process
      = Done (r, p1')
    /\ executePythonSync sample [NapiString factorial_of_5_source]
         sample_process = Done (r, p2')
    /\ pending_exception r = None
    /\ is_number (Get (returned r) "result") 3628800
    /\ is_number (Get (returned r) "input") 10
    /\ Get (returned r) "message"
       = Some (NapiString
                 "Python code executed and output parsed by C++ bridge.")
    /\ forall key, is_Some (Get (returned r) key) ->
                   key ∈ ["result"; "input"; "message"].
Proof.
  apply (executePythonSync_success_results_identical
           sample sample_process sample_process
           "x = 1" factorial_of_5_source [] []
           EmptyString (factorial_of_5_output +:+ newline) Py_None Py_None);
    reflexivity.
Defined.

(** ** C9: the argument check *)

(** C9: called with no argument, or with a first argument that is not a
    string, [executePythonSync] throws the [TypeError]
    "Expected one string argument (Python code)." and returns [Null]; the
    process is left as it was: the flag, the state of the runtime and the
    log of calls into it are unchanged, so nothing was initialized and
    nothing was executed. *)
Theorem executePythonSync_rejects_non_string
    (R : PyRuntime) (info : list NapiValue) (p : Process R) :
  info = [] \/ (exists v more, info = v :: more /\ IsString v = false) ->
  exists r,
    executePythonSync R info p = Done (r, p)
    /\ returned r = NapiNull
    /\ pending_exception r
       = Some (NapiTypeError "Expected one string argument (Python code).").
Proof.
  intros [-> | (v & more & -> & Hv)].
  - eexists. split; [reflexivity|]. split; reflexivity.
  - unfold executePythonSync. cbn [length nth Nat.ltb Nat.leb orb].
    rewrite Hv. cbn [negb]. eexists. split; [reflexivity|]. split; reflexivity.
Qed.

Lemma executePythonSync_rejects_non_string_witness :
  (exists r,
     executePythonSync sample [] sample_process = Done (r, sample_process)
     /\ returned r = NapiNull
     /\ pending_exception r
        = Some (NapiTypeError "Expected one string argument (Python code)."))
  /\ (exists r,
        executePythonSync sample [NapiNumber (Double.of_Z 42); NapiString "1/0"]
          sample_process = Done (r, sample_process)
        /\ returned r = NapiNull
        /\ pending_exception r
           = Some (NapiTypeError
                     "Expected one string argument (Python code).")).
Proof.
  split.
  - apply (executePythonSync_rejects_non_string sample [] sample_process).
    left. reflexivity.
  - apply (executePythonSync_rejects_non_string sample
             [NapiNumber (Double.of_Z 42); NapiString "1/0"] sample_process).
    right. eexists. eexists. split; reflexivity.
Defined.

(** ** C3: the messages of a failed call *)

(** Case analysis on the branches of the gateway. *)
Ltac gateway_cases H :=
  unfold executePythonSync in H;
  repeat match type of H with
         | context [if ?b then _ else _] => destruct b eqn:?
         | context [match ?x with _ => _ end] => destruct x eqn:?
         end.

(** Whatever the call throws is one of the five errors of the source,
    and the value returned with it is [Null]. *)
Lemma executePythonSync_thrown (R : PyRuntime) (info : list NapiValue)
    (p p' : Process R) (r : CallResult) (e : JsError) :
  executePythonSync R info p = Done (r, p') ->
  pending_exception r = Some e ->
  bridge_failure_message e /\ returned r = NapiNull.
Proof.
  intros H He. unfold bridge_failure_message.
  gateway_cases H; try discriminate H;
    injection H as <- <-; cbn in He; try discriminate He;
    injection He as <-; split; try reflexivity; eauto 10.
Qed.

(** C3, as stated, fails: when [PyImport_AddModule] gives no [__main__]
    module the call throws "Failed to get Python __main__ module.", which
    is none of the three forms; no source was executed and no output
    parsed. *)
Lemma main_module_failure_is_a_fourth_message :
  exists r p' e,
    executePythonSync (scripted (fun _ => true) false sample_run)
      [NapiString "pass"] (cold (fun _ => true) false sample_run)
      = Done (r, p')
    /\ pending_exception r = Some e
    /\ message_of e = "Failed to get Python __main__ module."%string
    /\ sources_run (api_log p') = []
    /\ ~ spec_failure_message (message_of e).
Proof.
  eexists. eexists. eexists. split; [vm_compute; reflexivity|].
  split; [reflexivity|]. split; [reflexivity|]. split; [reflexivity|].
  unfold spec_failure_message, spec_FatalError_message,
    spec_RuntimeError_message, spec_ParseError_message.
  intros [H | [[text H] | H]]; discriminate H.
Qed.

(** C3, amended: whenever [executePythonSync] fails, the error it raises
    is one of five: the [TypeError]
    "Expected one string argument (Python code)." for a missing or
    non-string argument, or an [Error] with the message
    "Failed to initialize Python interpreter.",
    "Failed to get Python __main__ module.",
    "Python Error: " followed by the text of the embedded exception, or
    "Unknown Python execution error."; there is no message for
    unparseable output. *)
Theorem executePythonSync_failure_messages
    (R : PyRuntime) (info : list NapiValue) (p p' : Process R)
    (r : CallResult) :
  executePythonSync R info p = Done (r, p') ->
  Failed r ->
  exists e,
    pending_exception r = Some e
    /\ returned r = NapiNull
    /\ (e = NapiTypeError "Expected one string argument (Python code)."
        \/ e = NapiError "Failed to initialize Python interpreter."
        \/ e = NapiError "Failed to get Python __main__ module."
        \/ (exists text, e = NapiError ("Python Error: " +:+ text))
        \/ e = NapiError "Unknown Python execution error.").
Proof.
  intros H [e He]. exists e. split; [exact He|].
  destruct (executePythonSync_thrown R info p p' r e H He) as [Hm Hn].
  split; [exact Hn | exact Hm].
Qed.

Lemma executePythonSync_failure_messages_witness :
  exists r p',
    executePythonSync sample [NapiString "1/0"] sample_process = Done (r, p')
    /\ exists e,
         pending_exception r = Some e
         /\ returned r = NapiNull
         /\ (e = NapiTypeError "Expected one string argument (Python code)."
             \/ e = NapiError "Failed to initialize Python interpreter."
             \/ e = NapiError "Failed to get Python __main__ module."
             \/ (exists text, e = NapiError ("Python Error: " +:+ text))
             \/ e = NapiError "Unknown Python execution error.").
Proof.
  exists (Throw (NapiError "Python Error: division by zero")).
  exists (Build_Process sample true (1%nat, true)
            [Call_PyRun_String "1/0"; Call_PyImport_AddModule "__main__";
             Call_Py_Initialize true]).
  split; [vm_compute; reflexivity|].
  apply (executePythonSync_failure_messages sample [NapiString "1/0"]
           sample_process
           (Build_Process sample true (1%nat, true)
              [Call_PyRun_String "1/0"; Call_PyImport_AddModule "__main__";
               Call_Py_Initialize true])
           (Throw (NapiError "Python Error: division by zero"))).
  - vm_compute. reflexivity.
  - eexists. reflexivity.
Defined.

(** ** C5: the interpreter is brought up once *)

Section Lifecycle.

Variable R : PyRuntime.

Lemma fresh_flag_counts_inits (s : interp R) :
  flag_counts_inits R (fresh R s).
Proof. reflexivity. Qed.

(** A call on an initialized process does not call [Py_Initialize]. *)
Lemma executePythonSync_skips_init (info : list NapiValue)
    (p p' : Process R) (r : CallResult) :
  executePythonSync R info p = Done (r, p') ->
  python_initialized p = true ->
  python_initialized p' = true
  /\ init_calls (api_log p') = init_calls (api_log p)
  /\ successful_inits (api_log p') = successful_inits (api_log p).
Proof.
  intros H Hflag. unfold executePythonSync in H. rewrite Hflag in H.
  destruct ((length info <? 1)%nat
            || negb (IsString (nth 0 info NapiUndefined))).
  { injection H as <- <-. auto. }
  cbn [negb] in H. rewrite Hflag in H.
  destruct (PyImport_AddModule R "__main__" (interp_state p))
    as [[|] s]; cbn [negb interp_state api_log] in H.
  2:{ injection H as <- <-. auto. }
  destruct (PyRun_String R _ s) as [run s'].
  destruct (py_outcome run) as [o | [[[pStr|]]|]]; cbn [PyObject_Str] in H.
  - injection H as <- <-. auto.
  - destruct (PyUnicode_AsUTF8 pStr); [|discriminate H].
    injection H as <- <-. auto.
  - injection H as <- <-. auto.
  - injection H as <- <-. auto.
Qed.

(** A call with a source on a process whose flag is down calls
    [Py_Initialize] once, and raises the flag exactly when the runtime
    then says it is initialized. *)
Lemma executePythonSync_tries_init (info : list NapiValue)
    (p p' : Process R) (r : CallResult) :
  executePythonSync R info p = Done (r, p') ->
  python_initialized p = false ->
  IsString (nth 0 info NapiUndefined) = true ->
  init_calls (api_log p') = S (init_calls (api_log p))
  /\ python_initialized p'
     = Py_IsInitialized R (Py_Initialize R (interp_state p))
  /\ successful_inits (api_log p')
     = ((if python_initialized p' then 1 else 0)
        + successful_inits (api_log p))%nat
  /\ (python_initialized p' = false ->
      r = Throw (NapiError "Failed to initialize Python interpreter.")
      /\ interp_state p' = Py_Initialize R (interp_state p)
      /\ api_log p' = Call_Py_Initialize false :: api_log p).
Proof.
  intros H Hflag Hstr. unfold executePythonSync in H.
  rewrite Hflag, Hstr in H.
  destruct info as [|v more]; [discriminate Hstr|].
  cbn [length Nat.ltb Nat.leb orb negb] in H.
  destruct (Py_IsInitialized R (Py_Initialize R (interp_state p))) eqn:Hup.
  2:{ cbn [negb] in H. injection H as <- <-.
      cbn [python_initialized api_log init_calls successful_inits
           interp_state].
      rewrite ?Hflag. intuition reflexivity. }
  cbn [negb interp_state python_initialized api_log] in H.
  destruct (PyImport_AddModule R "__main__" _) as [[|] s];
    cbn [negb interp_state api_log] in H.
  2:{ injection H as <- <-. cbn. repeat split; [discriminate..]. }
  destruct (PyRun_String R _ s) as [run s'].
  destruct (py_outcome run) as [o | [[[pStr|]]|]]; cbn [PyObject_Str] in H.
  - injection H as <- <-. cbn. repeat split; [discriminate..].
  - destruct (PyUnicode_AsUTF8 pStr); [|discriminate H].
    injection H as <- <-. cbn. repeat split; [discriminate..].
  - injection H as <- <-. cbn. repeat split; [discriminate..].
  - injection H as <- <-. cbn. repeat split; [discriminate..].
Qed.

(** A call that the argument check rejects leaves the process alone. *)
Lemma executePythonSync_rejected_unchanged (info : list NapiValue)
    (p p' : Process R) (r : CallResult) :
  executePythonSync R info p = Done (r, p') ->
  IsString (nth 0 info NapiUndefined) = false ->
  p' = p.
Proof.
  intros H Hstr. unfold executePythonSync in H. rewrite Hstr in H.
  rewrite orb_true_r in H. injection H as _ <-. reflexivity.
Qed.

Lemma executePythonSync_flag_counts_inits (info : list NapiValue)
    (p p' : Process R) (r : CallResult) :
  executePythonSync R info p = Done (r, p') ->
  flag_counts_inits R p -> flag_counts_inits R p'.
Proof.
  unfold flag_counts_inits. intros H Hinv.
  destruct (IsString (nth 0 info NapiUndefined)) eqn:Hstr.
  - destruct (python_initialized p) eqn:Hflag.
    + destruct (executePythonSync_skips_init _ _ _ _ H Hflag)
        as (-> & _ & ->). exact Hinv.
    + destruct (executePythonSync_tries_init _ _ _ _ H Hflag Hstr)
        as (_ & _ & -> & _). rewrite Hinv. lia.
  - rewrite (executePythonSync_rejected_unchanged _ _ _ _ H Hstr).
    exact Hinv.
Qed.

Lemma run_calls_flag_counts_inits (calls : list (list NapiValue)) :
  forall p p' : Process R,
    run_calls R calls p = Done p' ->
    flag_counts_inits R p -> flag_counts_inits R p'.
Proof.
  induction calls as [|info calls IH]; intros p p' H Hinv.
  - injection H as <-. exact Hinv.
  - cbn [run_calls] in H.
    destruct (executePythonSync R info p) as [[r q]|] eqn:Hcall;
      [|discriminate H].
    apply (IH q p' H).
    exact (executePythonSync_flag_counts_inits _ _ _ _ Hcall Hinv).
Qed.

End Lifecycle.

(** C5: in a process that starts with the flag down, after any sequence
    of calls the log holds at most one bring-up that succeeded, and the
    flag is up exactly when it holds one.  A call made with the flag up
    does not call [Py_Initialize]; a call with a source made with the flag
    down calls it once and raises the flag exactly when the bring-up
    succeeded; when it failed the call throws
    "Failed to initialize Python interpreter." and the flag stays down, so
    that the next call tries again. *)
Theorem initialization_runs_at_most_once
    (R : PyRuntime) (s0 : interp R) (calls : list (list NapiValue))
    (p p' : Process R) (info : list NapiValue) (r : CallResult) :
  run_calls R calls (fresh R s0) = Done p ->
  executePythonSync R info p = Done (r, p') ->
  (successful_inits (api_log p') <= 1)%nat
  /\ (python_initialized p' = true <-> successful_inits (api_log p') = 1%nat)
  /\ (python_initialized p = true ->
      python_initialized p' = true
      /\ init_calls (api_log p') = init_calls (api_log p))
  /\ (python_initialized p = false ->
      IsString (nth 0 info NapiUndefined) = true ->
      init_calls (api_log p') = S (init_calls (api_log p))
      /\ python_initialized p'
         = Py_IsInitialized R (Py_Initialize R (interp_state p))
      /\ (python_initialized p' = false ->
          r = Throw (NapiError "Failed to initialize Python interpreter.")
          /\ forall info2 r2 p2,
               IsString (nth 0 info2 NapiUndefined) = true ->
               executePythonSync R info2 p' = Done (r2, p2) ->
               init_calls (api_log p2) = S (init_calls (api_log p')))).
Proof.
  intros Hcalls Hcall.
  assert (Hinv : flag_counts_inits R p').
  { apply (executePythonSync_flag_counts_inits R info p p' r Hcall).
    apply (run_calls_flag_counts_inits R calls (fresh R s0) p Hcalls).
    apply fresh_flag_counts_inits. }
  unfold flag_counts_inits in Hinv.
  split; [|split; [|split]].
  - rewrite Hinv. destruct (python_initialized p'); lia.
  - rewrite Hinv. destruct (python_initialized p'); split; intros; lia || congruence.
  - intros Hflag.
    destruct (executePythonSync_skips_init R info p p' r Hcall Hflag)
      as (H1 & H2 & _). auto.
  - intros Hflag Hstr.
    destruct (executePythonSync_tries_init R info p p' r Hcall Hflag Hstr)
      as (H1 & H2 & _ & H4).
    split; [exact H1|]. split; [exact H2|].
    intros Hdown. split; [apply H4; exact Hdown|].
    intros info2 r2 p2 Hstr2 Hcall2.
    apply (executePythonSync_tries_init R info2 p' p2 r2 Hcall2 Hdown Hstr2).
Qed.

Lemma initialization_runs_at_most_once_witness :
  (successful_inits (api_log flaky_after_two_calls) <= 1)%nat
  /\ (python_initialized flaky_after_two_calls = true
      <-> successful_inits (api_log flaky_after_two_calls) = 1%nat)
  /\ (python_initialized flaky_after_one_call = false ->
      IsString (nth 0 [NapiString "pass"] NapiUndefined) = true ->
      init_calls (api_log flaky_after_two_calls)
      = S (init_calls (api_log flaky_after_one_call))
      /\ python_initialized flaky_after_two_calls
         = Py_IsInitialized flaky
             (Py_Initialize flaky (interp_state flaky_after_one_call))).
Proof.
  destruct (initialization_runs_at_most_once flaky (0%nat, false)
              [[NapiString "pass"]]
              flaky_after_one_call flaky_after_two_calls
              [NapiString "pass"] (Return mock_object))
    as (H1 & H2 & _ & H4).
  - vm_compute. reflexivity.
  - vm_compute. reflexivity.
  - split; [exact H1|]. split; [exact H2|].
    intros Hflag Hstr. destruct (H4 Hflag Hstr) as (H5 & H6 & _).
    split; [exact H5 | exact H6].
Defined.

(** ** C4: an exception in the executed source *)

Section Exceptions.

Variable R : PyRuntime.

(** When the exception's text can be written in UTF-8, it is thrown
    after the prefix "Python Error: ", cut at its first NUL; the flag
    stays up. *)
Lemma executePythonSync_raised (p : Process R) (python_code : string)
    (more : list NapiValue) (printed : string) (pvalue : PyExcValue)
    (pStr : PyStr) (utf8 : string) :
  execution_of R p python_code
    = Some {| py_stdout := printed;
              py_outcome := PyRaised (Some pvalue) |} ->
  PyObject_Str pvalue = Some pStr ->
  PyUnicode_AsUTF8 pStr = Some utf8 ->
  exists p',
    executePythonSync R (NapiString python_code :: more) p
      = Done (Throw (NapiError ("Python Error: " +:+ c_str utf8)), p')
    /\ python_initialized p' = true.
Proof.
  unfold execution_of, after_initialization, executePythonSync.
  cbn [length nth IsString Utf8Value negb orb Nat.ltb Nat.leb].
  intros H Hstr Hutf8.
  destruct (python_initialized p) eqn:Hflag.
  - cbn [negb]. rewrite Hflag.
    destruct (PyImport_AddModule R "__main__" (interp_state p))
      as [[|] s] eqn:Hmain; [|discriminate].
    cbn [negb interp_state].
    destruct (PyRun_String R (c_str python_code) s) as [run s'] eqn:Hrun.
    cbn [fst] in H. injection H as ->. cbn [py_outcome].
    rewrite Hstr, Hutf8. eauto.
  - destruct (Py_IsInitialized R (Py_Initialize R (interp_state p)));
      [|discriminate].
    cbn [negb interp_state].
    destruct (PyImport_AddModule R "__main__"
                (Py_Initialize R (interp_state p)))
      as [[|] s] eqn:Hmain; [|discriminate].
    cbn [negb interp_state].
    destruct (PyRun_String R (c_str python_code) s) as [run s'] eqn:Hrun.
    cbn [fst] in H. injection H as ->. cbn [py_outcome].
    rewrite Hstr, Hutf8. eauto.
Qed.

(** When the exception's text cannot be written in UTF-8, the null
    pointer [PyUnicode_AsUTF8] returns is appended to the message. *)
Lemma executePythonSync_raised_unencodable (p : Process R)
    (python_code : string) (more : list NapiValue) (printed : string)
    (pvalue : PyExcValue) (pStr : PyStr) :
  execution_of R p python_code
    = Some {| py_stdout := printed;
              py_outcome := PyRaised (Some pvalue) |} ->
  PyObject_Str pvalue = Some pStr ->
  PyUnicode_AsUTF8 pStr = None ->
  executePythonSync R (NapiString python_code :: more) p
    = UndefinedBehaviour.
Proof.
  unfold execution_of, after_initialization, executePythonSync.
  cbn [length nth IsString Utf8Value negb orb Nat.ltb Nat.leb].
  intros H Hstr Hutf8.
  destruct (python_initialized p) eqn:Hflag.
  - cbn [negb]. rewrite Hflag.
    destruct (PyImport_AddModule R "__main__" (interp_state p))
      as [[|] s] eqn:Hmain; [|discriminate].
    cbn [negb interp_state].
    destruct (PyRun_String R (c_str python_code) s) as [run s'] eqn:Hrun.
    cbn [fst] in H. injection H as ->. cbn [py_outcome].
    rewrite Hstr, Hutf8. reflexivity.
  - destruct (Py_IsInitialized R (Py_Initialize R (interp_state p)));
      [|discriminate].
    cbn [negb interp_state].
    destruct (PyImport_AddModule R "__main__"
                (Py_Initialize R (interp_state p)))
      as [[|] s] eqn:Hmain; [|discriminate].
    cbn [negb interp_state].
    destruct (PyRun_String R (c_str python_code) s) as [run s'] eqn:Hrun.
    cbn [fst] in H. injection H as ->. cbn [py_outcome].
    rewrite Hstr, Hutf8. reflexivity.
Qed.

End Exceptions.

(** [1/0] on the sample runtime: the division's message is thrown, the
    flag is up, and a second call on the process left behind runs. *)
Example division_by_zero_is_reported :
  exists p',
    executePythonSync sample [NapiString "1/0"] sample_process
      = Done (Throw (NapiError "Python Error: division by zero"), p')
    /\ python_initialized p' = true
    /\ exists p'',
         executePythonSync sample [NapiString "pass"] p'
           = Done (Return mock_object, p'')
         /\ init_calls (api_log p'') = 1%nat.
Proof.
  eexists. split; [vm_compute; reflexivity|]. split; [reflexivity|].
  eexists. split; [vm_compute; reflexivity|]. reflexivity.
Qed.

(** C4 at [raise Exception('\udc80')]: the source raises, the exception
    value has a string form, the lone surrogate U+DC80, but that form has
    no UTF-8 encoding; [PyUnicode_AsUTF8] returns NULL and the call
    appends it to the message: no [Error] is thrown and nothing the C++
    standard defines follows. *)
Theorem executePythonSync_unencodable_exception_text :
  execution_of sample sample_process raise_surrogate_source
    = Some {| py_stdout := EmptyString;
              py_outcome :=
                PyRaised (Some {| PyObject_Str := Some [56448] |}) |}
  /\ PyUnicode_AsUTF8 [56448] = None
  /\ executePythonSync sample [NapiString raise_surrogate_source]
       sample_process = UndefinedBehaviour.
Proof.
  split; [reflexivity|]. split; [reflexivity|]. vm_compute. reflexivity.
Qed.

(** ** The marshaller *)

(** C6, as stated, fails: for a Python [list] the marshaller answers
    "[Unsupported Python Type]", a text in which the type's name does not
    occur and which is the same for a [dict]. *)
Lemma unsupported_type_is_not_named :
  PyObjectToNapiValue 64 (Some (PyOtherObject "list")) None
    = (NapiString "[Unsupported Python Type]", None)
  /\ contains "list" "[Unsupported Python Type]" = false
  /\ PyObjectToNapiValue 64 (Some (PyOtherObject "dict")) None
     = PyObjectToNapiValue 64 (Some (PyOtherObject "list")) None.
Proof. split; [reflexivity|]. split; reflexivity. Qed.

(** C6, amended: the conversion is total and never fails: it always
    yields a scalar host value and leaves no Python error behind (the
    error indicator is as it was, or cleared); an unsupported foreign
    type maps to the fixed host string "[Unsupported Python Type]", which
    does not depend on the type, and a string whose UTF-8 encoding fails
    maps to the host string "[Decoding Error]". *)
Theorem PyObjectToNapiValue_never_fails
    (LONG_BIT : Z) (py_obj : option PyObject) (err : PyErr)
    (tp_name : string) (u : PyStr) :
  utf8_encode u = None ->
  (exists v err',
     PyObjectToNapiValue LONG_BIT py_obj err = (v, err')
     /\ is_scalar v = true
     /\ (err' = err \/ err' = None))
  /\ PyObjectToNapiValue LONG_BIT (Some (PyOtherObject tp_name)) err
     = (NapiString "[Unsupported Python Type]", err)
  /\ PyObjectToNapiValue LONG_BIT (Some (PyUnicodeObject u)) err
     = (NapiString "[Decoding Error]", None).
Proof.
  intros Hu. split; [|split].
  - destruct py_obj as [o|]; [|cbn; eauto 8].
    destruct o as [| | |n|d|w|name]; cbn; eauto 8.
    + destruct (fits_long LONG_BIT n).
      * destruct err as [e|];
          destruct (n =? -1); cbn; eauto 8.
      * cbn. eauto 8.
    + destruct (utf8_encode w); cbn; eauto 8.
  - reflexivity.
  - cbn. rewrite Hu. reflexivity.
Qed.

Lemma PyObjectToNapiValue_never_fails_witness :
  (exists v err',
     PyObjectToNapiValue 64 (Some (PyLongObject (2 ^ 64)))
       (Some "KeyError"%string) = (v, err')
     /\ is_scalar v = true
     /\ (err' = Some "KeyError"%string \/ err' = None))
  /\ PyObjectToNapiValue 64 (Some (PyOtherObject "list"))
       (Some "KeyError"%string)
     = (NapiString "[Unsupported Python Type]", Some "KeyError"%string)
  /\ PyObjectToNapiValue 64 (Some (PyUnicodeObject [104; 56448]))
       (Some "KeyError"%string)
     = (NapiString "[Decoding Error]", None).
Proof.
  apply (PyObjectToNapiValue_never_fails 64
           (Some (PyLongObject (2 ^ 64))) (Some "KeyError"%string)
           "list" [104; 56448]).
  reflexivity.
Defined.

(** C7, as stated, fails: [2 ^ 64] is outside the safe range and [0] is
    inside, and both are converted to the same host value; so no test on
    the converted value tells a lossy conversion from an exact one. *)
Lemma integer_overflow_is_not_detectable :
  Double.is_safe_integer (2 ^ 64) = false
  /\ Double.is_safe_integer 0 = true
  /\ PyObjectToNapiValue 64 (Some (PyLongObject (2 ^ 64))) None
     = (NapiNumber (S754_zero false), None)
  /\ PyObjectToNapiValue 64 (Some (PyLongObject 0)) None
     = (NapiNumber (S754_zero false), None)
  /\ ~ exists lossy : NapiValue * PyErr -> bool,
         forall n,
           lossy (PyObjectToNapiValue 64 (Some (PyLongObject n)) None)
           = negb (Double.is_safe_integer n).
Proof.
  split; [reflexivity|]. split; [reflexivity|].
  split; [reflexivity|]. split; [reflexivity|].
  intros [lossy H].
  pose proof (H (2 ^ 64)) as H1. pose proof (H 0) as H2.
  change (PyObjectToNapiValue 64 (Some (PyLongObject (2 ^ 64))) None)
    with (NapiNumber (S754_zero false), @None string) in H1.
  change (PyObjectToNapiValue 64 (Some (PyLongObject 0)) None)
    with (NapiNumber (S754_zero false), @None string) in H2.
  rewrite H1 in H2. discriminate H2.
Qed.

(** C7, amended: for every embedded integer outside the safe range the
    conversion does not raise and is deterministic: an integer that fits
    a C [long] is converted to the double nearest to it, one that does
    not is converted to the number 0 and the [OverflowError] is cleared;
    0 is also what the embedded integer 0 converts to, so the overflow
    cannot be told from the value returned. *)
Theorem PyObjectToNapiValue_unsafe_integer
    (LONG_BIT : Z) (n : Z) (err : PyErr) :
  Double.is_safe_integer n = false ->
  PyObjectToNapiValue LONG_BIT (Some (PyLongObject n)) err
  = (if fits_long LONG_BIT n
     then (NapiNumber (Double.of_Z n), err)
     else (NapiNumber (S754_zero false), None))
  /\ fst (PyObjectToNapiValue LONG_BIT (Some (PyLongObject 0)) err)
     = NapiNumber (S754_zero false).
Proof.
  intros Hn. split.
  - cbn. destruct (fits_long LONG_BIT n); [|reflexivity].
    destruct (n =? -1) eqn:E; [|reflexivity].
    apply Z.eqb_eq in E. subst n. discriminate Hn.
  - cbn. destruct (fits_long LONG_BIT 0); [|reflexivity].
    destruct err; reflexivity.
Qed.

Lemma PyObjectToNapiValue_unsafe_integer_witness :
  (PyObjectToNapiValue 64 (Some (PyLongObject (2 ^ 53 + 1))) None
   = (if fits_long 64 (2 ^ 53 + 1)
      then (NapiNumber (Double.of_Z (2 ^ 53 + 1)), None)
      else (NapiNumber (S754_zero false), None))
   /\ fst (PyObjectToNapiValue 64 (Some (PyLongObject 0)) None)
      = NapiNumber (S754_zero false))
  /\ Double.to_Z (Double.of_Z (2 ^ 53 + 1)) = Some (2 ^ 53).
Proof.
  split.
  - apply (PyObjectToNapiValue_unsafe_integer 64 (2 ^ 53 + 1) None).
    reflexivity.
  - vm_compute. reflexivity.
Defined.

(** What the conversion keeps: [None], the two booleans, the integers of
    the safe range (on a clean error indicator, with a [long] of 54 bits
    or more), the floats, and the strings whose UTF-8 form has no NUL
    byte. *)
Lemma PyObjectToNapiValue_scalars (LONG_BIT : Z) (err : PyErr) :
  PyObjectToNapiValue LONG_BIT (Some Py_None) err = (NapiNull, err)
  /\ PyObjectToNapiValue LONG_BIT (Some Py_True) err
     = (NapiBoolean true, err)
  /\ PyObjectToNapiValue LONG_BIT (Some Py_False) err
     = (NapiBoolean false, err)
  /\ (forall d,
        PyObjectToNapiValue LONG_BIT (Some (PyFloatObject d)) err
        = (NapiNumber d, err))
  /\ (forall n,
        54 <= LONG_BIT -> Double.is_safe_integer n = true ->
        exists d,
          PyObjectToNapiValue LONG_BIT (Some (PyLongObject n)) None
          = (NapiNumber d, None)
          /\ Double.to_Z d = Some n)
  /\ (forall u bytes,
        utf8_encode u = Some bytes -> c_str bytes = bytes ->
        PyObjectToNapiValue LONG_BIT (Some (PyUnicodeObject u)) err
        = (NapiString bytes, err)).
Proof.
  split; [reflexivity|]. split; [reflexivity|]. split; [reflexivity|].
  split; [reflexivity|]. split.
  - intros n HL Hn. exists (Double.of_Z n).
    split; [|apply to_Z_of_Z; exact Hn].
    cbn. rewrite (safe_integer_fits_long LONG_BIT n HL Hn).
    cbn. rewrite andb_false_r. reflexivity.
  - intros u bytes Hu Hc. cbn. rewrite Hu, Hc. reflexivity.
Qed.

Example PyObjectToNapiValue_hi :
  PyObjectToNapiValue 64 (Some (PyUnicodeObject (code_points "hi"))) None
  = (NapiString "hi", None).
Proof. reflexivity. Qed.

(** C8 at the Python string ["a\0b"]: it is encoded to the three bytes
    [a], NUL, [b], and the host string built from them is ["a"]: the copy
    into [std::string] stops at the NUL. *)
Theorem PyObjectToNapiValue_cuts_string_at_NUL :
  utf8_encode [97; 0; 98]
    = Some (String "a" (String Ascii.zero (String "b" EmptyString)))
  /\ PyObjectToNapiValue 64 (Some (PyUnicodeObject [97; 0; 98])) None
     = (NapiString "a", None)
  /\ NapiString "a"
     <> NapiString (String "a" (String Ascii.zero (String "b" EmptyString))).
Proof.
  split; [reflexivity|]. split; [reflexivity|]. discriminate.
Qed.

(** * UTF-8 and C strings *)

Lemma byte_nonzero (n : Z) :
  0 < n < 256 -> Ascii.eqb (byte n) Ascii.zero = false.
Proof.
  intros Hn. apply Ascii.eqb_neq. intros H.
  apply (f_equal N_of_ascii) in H. unfold byte in H.
  rewrite N_ascii_embedding in H by lia. cbn in H. lia.
Qed.

Lemma lor_byte (a b : Z) :
  0 < a < 256 -> 0 <= b < 256 -> 0 < Z.lor a b < 256.
Proof.
  intros Ha Hb.
  assert (H0 : 0 <= Z.lor a b) by (apply Z.lor_nonneg; lia).
  assert (H1 : Z.lor a b <> 0).
  { intros H. apply Z.lor_eq_0_iff in H. lia. }
  split; [lia|].
  change 256 with (2 ^ 8). apply Z.log2_lt_pow2; [lia|].
  rewrite Z.log2_lor by lia.
  assert (Z.log2 a < 8) by (apply Z.log2_lt_pow2; lia).
  destruct (Z.eq_dec b 0) as [->|]; [cbn; lia|].
  assert (Z.log2 b < 8) by (apply Z.log2_lt_pow2; lia).
  lia.
Qed.

Lemma continuation_nonzero (c shift : Z) :
  Ascii.eqb (continuation c shift) Ascii.zero = false.
Proof.
  unfold continuation. apply byte_nonzero. apply lor_byte; [lia|].
  change 63 with (Z.ones 6). rewrite Z.land_ones by lia.
  pose proof (Z.mod_pos_bound (Z.shiftr c shift) (2 ^ 6) ltac:(lia)). lia.
Qed.

Lemma shiftr_byte (c k : Z) :
  0 <= c -> 0 <= k -> c < 256 * 2 ^ k -> 0 <= Z.shiftr c k < 256.
Proof.
  intros Hc Hk Hlt. rewrite Z.shiftr_div_pow2 by lia.
  assert (0 < 2 ^ k) by (apply Z.pow_pos_nonneg; lia).
  split; [apply Z.div_pos; lia|].
  apply Z.div_lt_upper_bound; lia.
Qed.

Lemma utf8_of_code_point_nonzero (c : Z) (bs : list ascii) :
  utf8_of_code_point c = Some bs -> c <> 0 -> nonzero_bytes bs.
Proof.
  unfold utf8_of_code_point, nonzero_bytes. intros H Hc.
  repeat match type of H with
         | context [if ?b then _ else _] => destruct b eqn:?
         end; try discriminate H; injection H as <-;
    repeat match goal with
           | E : (_ <? _) = true |- _ => apply Z.ltb_lt in E
           | E : (_ <? _) = false |- _ => apply Z.ltb_ge in E
           end;
    repeat constructor; try apply continuation_nonzero;
    apply byte_nonzero;
    first [lia | apply lor_byte; [lia | apply shiftr_byte; cbn; lia]].
Qed.

Lemma c_str_nonzero_bytes (bs : list ascii) (tail : string) :
  nonzero_bytes bs ->
  c_str (string_of_list_ascii bs +:+ tail)
  = string_of_list_ascii bs +:+ c_str tail.
Proof.
  induction 1 as [|b bs Hb _ IH]; [reflexivity|].
  simpl. rewrite Hb, IH. reflexivity.
Qed.

Lemma utf8_encode_before_nul (u : PyStr) (bytes : string) :
  utf8_encode u = Some bytes ->
  utf8_encode (before_nul u) = Some (c_str bytes).
Proof.
  revert bytes. induction u as [|c u IH]; intros bytes H.
  - injection H as <-. reflexivity.
  - cbn [utf8_encode] in H.
    destruct (utf8_of_code_point c) as [bs|] eqn:Hc; [|discriminate H].
    destruct (utf8_encode u) as [tail|]; [|discriminate H].
    injection H as <-. cbn [before_nul].
    destruct (c =? 0) eqn:E.
    + apply Z.eqb_eq in E. subst c. injection Hc as <-. reflexivity.
    + apply Z.eqb_neq in E. cbn [utf8_encode]. rewrite Hc, (IH tail eq_refl).
      rewrite (c_str_nonzero_bytes bs tail
                 (utf8_of_code_point_nonzero c bs Hc E)).
      reflexivity.
Qed.

Lemma before_nul_without_nul (u : PyStr) :
  Forall (fun c => c <> 0) u -> before_nul u = u.
Proof.
  induction 1 as [|c u Hc _ IH]; [reflexivity|].
  cbn. apply Z.eqb_neq in Hc. rewrite Hc, IH. reflexivity.
Qed.

Lemma utf8_of_code_point_scalar (c : Z) :
  utf8_of_code_point c = None <-> is_scalar_value c = false.
Proof.
  unfold utf8_of_code_point, is_scalar_value.
  destruct (c <? 0) eqn:E0, (c <? 128) eqn:E1, (c <? 2048) eqn:E2,
    (c <? 65536) eqn:E3, (c <? 1114112) eqn:E4, (is_surrogate c) eqn:E5,
    (0 <=? c) eqn:E6; cbn; split; try discriminate; try reflexivity;
    unfold is_surrogate in E5; lia.
Qed.

Lemma utf8_encode_scalar (u : PyStr) :
  utf8_encode u = None <-> forallb is_scalar_value u = false.
Proof.
  induction u as [|c u IH]; [cbn; split; discriminate|].
  cbn [utf8_encode forallb].
  destruct (utf8_of_code_point c) as [bs|] eqn:Hc.
  - destruct (is_scalar_value c) eqn:Hs.
    + cbn. destruct (utf8_encode u); [|tauto].
      split; [discriminate|]. intros H. apply IH in H. discriminate H.
    + apply utf8_of_code_point_scalar in Hs. congruence.
  - apply utf8_of_code_point_scalar in Hc. rewrite Hc. cbn. tauto.
Qed.


(** * Further properties of the gateway *)

Lemma c_str_idempotent (s : string) : c_str (c_str s) = c_str s.
Proof.
  induction s as [|c s IH]; [reflexivity|].
  cbn [c_str]. destruct (Ascii.eqb c Ascii.zero) eqn:E; [reflexivity|].
  cbn [c_str]. rewrite E, IH. reflexivity.
Qed.

(** Case analysis on the stages of a call, in the goal. *)
Ltac stage_cases :=
  repeat
    (cbn [negb fst snd interp_state python_initialized api_log py_outcome
          py_stdout PyObject_Str orb length nth IsString Utf8Value
          Nat.ltb Nat.leb];
     match goal with
     | |- context [if python_initialized ?p then _ else _] =>
         destruct (python_initialized p) eqn:?
     | |- context [Py_IsInitialized ?R ?s] =>
         destruct (Py_IsInitialized R s) eqn:?
     | |- context [PyImport_AddModule ?R ?n ?s] =>
         destruct (PyImport_AddModule R n s) as [[|] ?] eqn:?
     | |- context [PyRun_String ?R ?c ?s] =>
         destruct (PyRun_String R c s) as [? ?] eqn:?
     | |- context [match py_outcome ?run with _ => _ end] =>
         destruct (py_outcome run) as [?|[[[?|]]|]] eqn:?
     | |- context [PyUnicode_AsUTF8 ?s] =>
         destruct (PyUnicode_AsUTF8 s) eqn:?
     end).

Ltac call_done := intros [= <- <-]; cbn.

Ltac stage_facts :=
  repeat match goal with
  | E : PyImport_AddModule ?R ?n ?s = (?b, ?i) |- _ =>
      lazymatch goal with
      | _ : fst (PyImport_AddModule R n s) = b |- _ => fail
      | _ => assert (fst (PyImport_AddModule R n s) = b)
               by (rewrite E; reflexivity)
      end
  end.

Ltac settle :=
  cbn; stage_facts;
  repeat match goal with
    | |- _ <-> _ => split
    | |- _ /\ _ => split
    | |- _ -> _ => intro
    | H : exists _, _ |- _ => destruct H
    | H : _ /\ _ |- _ => destruct H
    | H : Some _ = Some _ |- _ => injection H as H; try subst
    | H : Some _ = None |- _ => discriminate H
    | H : None = Some _ |- _ => discriminate H
    | H1 : py_outcome ?x = _, H2 : py_outcome ?x = _ |- _ =>
        rewrite H1 in H2;
        first [discriminate H2 | injection H2 as H2; try subst; cbn in *]
    end;
  try discriminate;
  try congruence;
  try solve [repeat esplit; first [reflexivity | eassumption | congruence]].

Lemma argument_check_accepted (info : list NapiValue) :
  (length info <? 1)%nat || negb (IsString (nth 0 info NapiUndefined))
  = negb (accepted info).
Proof. destruct info; reflexivity. Qed.

Lemma c_str_before_NUL (s tail : string) :
  c_str (c_str s +:+ String Ascii.zero tail) = c_str s.
Proof.
  induction s as [|c s IH]; [reflexivity|].
  cbn [c_str]. destruct (Ascii.eqb c Ascii.zero) eqn:E; [reflexivity|].
  simpl. rewrite E, IH. reflexivity.
Qed.

(** X1: the interpreter is given the source as a C string: two source
    texts with the same bytes before their first NUL make the same call,
    and so what follows a NUL in the text plays no part. *)
Theorem executePythonSync_cuts_source_at_NUL
    (R : PyRuntime) (code1 code2 tail : string) (more : list NapiValue)
    (p : Process R) :
  (c_str code1 = c_str code2 ->
   executePythonSync R (NapiString code1 :: more) p
   = executePythonSync R (NapiString code2 :: more) p)
  /\ executePythonSync R
       (NapiString (c_str code1 +:+ String Ascii.zero tail) :: more) p
     = executePythonSync R (NapiString code1 :: more) p.
Proof.
  assert (H : forall a b, c_str a = c_str b ->
            executePythonSync R (NapiString a :: more) p
            = executePythonSync R (NapiString b :: more) p).
  { intros a b Hab. unfold executePythonSync.
    cbn [length nth IsString Utf8Value negb orb Nat.ltb Nat.leb].
    rewrite Hab. reflexivity. }
  split; [apply H|]. apply H. apply c_str_before_NUL.
Qed.

Lemma executePythonSync_cuts_source_at_NUL_witness :
  executePythonSync sample
    [NapiString (String "1" (String Ascii.zero "/0"))] sample_process
  = executePythonSync sample [NapiString "1"] sample_process.
Proof.
  destruct (executePythonSync_cuts_source_at_NUL sample
              (String "1" (String Ascii.zero "/0")) "1" EmptyString []
              sample_process) as [H _].
  apply H. reflexivity.
Defined.

(** X2: a call succeeds exactly when its first argument is a string that
    gets executed and returns; the value returned is then the fixed
    object, and it is [Null] in every other case. *)
Theorem executePythonSync_success_iff
    (R : PyRuntime) (info : list NapiValue) (p p' : Process R)
    (r : CallResult) :
  executePythonSync R info p = Done (r, p') ->
  (pending_exception r = None
   <-> accepted info = true
       /\ exists run py_result,
            execution_of R p (Utf8Value (nth 0 info NapiUndefined))
            = Some run
            /\ py_outcome run = PyReturned py_result)
  /\ (pending_exception r = None -> returned r = mock_object)
  /\ (pending_exception r <> None -> returned r = NapiNull).
Proof.
  unfold execution_of, after_initialization, executePythonSync.
  rewrite argument_check_accepted.
  destruct (accepted info) eqn:Hacc; cbn [negb].
  - stage_cases; try discriminate; call_done; settle.
  - call_done. settle.
Qed.

Lemma executePythonSync_success_iff_witness :
  accepted [NapiString "pass"] = true
  /\ exists run py_result,
       execution_of sample sample_process "pass" = Some run
       /\ py_outcome run = PyReturned py_result.
Proof.
  apply (executePythonSync_success_iff sample [NapiString "pass"]
           sample_process (sample_after "pass") (Return mock_object)).
  - vm_compute. reflexivity.
  - reflexivity.
Defined.



(** X4: the error thrown tells the stage that failed: the [TypeError]
    comes from the argument check and from nothing else, "Failed to
    initialize Python interpreter." from a bring-up that failed, "Failed
    to get Python __main__ module." from a NULL module after a bring-up
    that passed, "Unknown Python execution error." from a source that
    raised with a NULL exception value, and a message that starts with
    "Python Error: " from a source that raised with a value. *)
Theorem executePythonSync_error_tells_stage
    (R : PyRuntime) (info : list NapiValue) (p p' : Process R)
    (r : CallResult) (e : JsError) :
  executePythonSync R info p = Done (r, p') ->
  pending_exception r = Some e ->
  (e = NapiTypeError "Expected one string argument (Python code)."
   <-> accepted info = false)
  /\ (e = NapiError "Failed to initialize Python interpreter."
      <-> accepted info = true /\ after_initialization R p = None)
  /\ (e = NapiError "Failed to get Python __main__ module."
      <-> accepted info = true
          /\ exists s, after_initialization R p = Some s
                       /\ fst (PyImport_AddModule R "__main__" s) = false)
  /\ (e = NapiError "Unknown Python execution error."
      <-> accepted info = true
          /\ exists run,
               execution_of R p (Utf8Value (nth 0 info NapiUndefined))
               = Some run
               /\ py_outcome run = PyRaised None)
  /\ ((exists text, e = NapiError ("Python Error: " +:+ text))
      <-> accepted info = true
          /\ exists run pvalue,
               execution_of R p (Utf8Value (nth 0 info NapiUndefined))
               = Some run
               /\ py_outcome run = PyRaised (Some pvalue)).
Proof.
  unfold execution_of, after_initialization, executePythonSync.
  rewrite argument_check_accepted.
  destruct (accepted info) eqn:Hacc; cbn [negb].
  - stage_cases; try discriminate; call_done; intros [= <-]; settle.
  - call_done. intros [= <-]. settle.
Qed.

Lemma executePythonSync_error_tells_stage_witness :
  accepted [NapiString "1/0"] = true
  /\ exists run pvalue,
       execution_of sample sample_process "1/0" = Some run
       /\ py_outcome run = PyRaised (Some pvalue).
Proof.
  destruct (executePythonSync_error_tells_stage sample [NapiString "1/0"]
              sample_process (sample_after "1/0")
              (Throw (NapiError "Python Error: division by zero"))
              (NapiError "Python Error: division by zero"))
    as (_ & _ & _ & _ & H).
  - vm_compute. reflexivity.
  - reflexivity.
  - apply H. exists "division by zero"%string. reflexivity.
Defined.

(** X5: when the source raises and the string form of the exception
    holds Unicode scalar values only, the call throws an [Error] whose
    message is "Python Error: " followed by the UTF-8 encoding of the
    code points before the first U+0000 of that string form; the flag is
    up afterwards. *)
Theorem executePythonSync_exception_text
    (R : PyRuntime) (p : Process R) (python_code : string)
    (more : list NapiValue) (run : PyRunResult) (pvalue : PyExcValue)
    (pStr : PyStr) :
  execution_of R p python_code = Some run ->
  py_outcome run = PyRaised (Some pvalue) ->
  PyObject_Str pvalue = Some pStr ->
  forallb is_scalar_value pStr = true ->
  exists text p',
    utf8_encode (before_nul pStr) = Some text
    /\ executePythonSync R (NapiString python_code :: more) p
       = Done (Throw (NapiError ("Python Error: " +:+ text)), p')
    /\ python_initialized p' = true.
Proof.
  intros Hrun Hout Hstr Hscalar.
  destruct (utf8_encode pStr) as [bytes|] eqn:Hbytes.
  2:{ apply utf8_encode_scalar in Hbytes. congruence. }
  destruct run as [printed outcome]. cbn in Hout. subst outcome.
  destruct (executePythonSync_raised R p python_code more printed pvalue
              pStr bytes Hrun Hstr Hbytes) as (p' & Hcall & Hflag).
  exists (c_str bytes), p'.
  split; [apply utf8_encode_before_nul; exact Hbytes|].
  split; [exact Hcall | exact Hflag].
Qed.

Lemma executePythonSync_exception_text_witness :
  exists text p',
    utf8_encode (before_nul (code_points "division by zero")) = Some text
    /\ executePythonSync sample [NapiString "1/0"] sample_process
       = Done (Throw (NapiError ("Python Error: " +:+ text)), p')
    /\ python_initialized p' = true.
Proof.
  apply (executePythonSync_exception_text sample sample_process "1/0" []
           {| py_stdout := EmptyString;
              py_outcome :=
                PyRaised (Some {| PyObject_Str :=
                                    Some (code_points "division by zero") |})
           |}
           {| PyObject_Str := Some (code_points "division by zero") |}
           (code_points "division by zero")); reflexivity.
Defined.

(** X6: a call hands the source to [PyRun_String] once, cut at its first
    NUL, when the argument check, the bring-up and the lookup of
    [__main__] all pass, and not at all otherwise. *)
Theorem executePythonSync_runs_source_once
    (R : PyRuntime) (info : list NapiValue) (p p' : Process R)
    (r : CallResult) :
  executePythonSync R info p = Done (r, p') ->
  sources_run (api_log p')
  = (if accepted info
     then match execution_of R p (Utf8Value (nth 0 info NapiUndefined)) with
          | Some _ => [c_str (Utf8Value (nth 0 info NapiUndefined))]
          | None => []
          end
     else []) ++ sources_run (api_log p).
Proof.
  unfold execution_of, after_initialization, executePythonSync.
  rewrite argument_check_accepted.
  destruct (accepted info) eqn:Hacc; cbn [negb].
  - stage_cases; try discriminate; call_done; reflexivity.
  - call_done. reflexivity.
Qed.

Lemma executePythonSync_runs_source_once_witness :
  sources_run (api_log (sample_after "1/0"))
  = (if accepted [NapiString "1/0"]
     then match execution_of sample sample_process
                  (Utf8Value (nth 0 [NapiString "1/0"] NapiUndefined)) with
          | Some _ =>
              [c_str (Utf8Value (nth 0 [NapiString "1/0"] NapiUndefined))]
          | None => []
          end
     else []) ++ sources_run (api_log sample_process).
Proof.
  apply (executePythonSync_runs_source_once sample [NapiString "1/0"]
           sample_process (sample_after "1/0")
           (Throw (NapiError "Python Error: division by zero"))).
  vm_compute. reflexivity.
Defined.

Lemma executePythonSync_ran_flag
    (R : PyRuntime) (info : list NapiValue) (p p' : Process R)
    (r : CallResult) :
  executePythonSync R info p = Done (r, p') ->
  accepted info = true ->
  is_Some (execution_of R p (Utf8Value (nth 0 info NapiUndefined))) ->
  python_initialized p' = true.
Proof.
  unfold execution_of, after_initialization, executePythonSync.
  rewrite argument_check_accepted. intros H Hacc. revert H.
  rewrite Hacc. cbn [negb].
  stage_cases; try discriminate; call_done; intros [? ?]; congruence.
Qed.

(** * Sequences of calls *)

(** X7: once the flag is up, no sequence of calls brings it down or
    calls [Py_Initialize] again, whatever the calls throw. *)
Theorem run_calls_never_reinitializes
    (R : PyRuntime) (calls : list (list NapiValue)) :
  forall p p' : Process R,
    run_calls R calls p = Done p' ->
    python_initialized p = true ->
    python_initialized p' = true
    /\ init_calls (api_log p') = init_calls (api_log p).
Proof.
  induction calls as [|info calls IH]; intros p p' H Hflag.
  - injection H as <-. auto.
  - cbn [run_calls] in H.
    destruct (executePythonSync R info p) as [[r q]|] eqn:Hcall;
      [|discriminate H].
    destruct (executePythonSync_skips_init R info p q r Hcall Hflag)
      as (Hq & Hn & _).
    destruct (IH q p' H Hq) as [H1 H2]. split; [exact H1|]. congruence.
Qed.

Lemma run_calls_never_reinitializes_witness :
  exists p',
    run_calls sample [[NapiString "1/0"]; []; [NapiString "pass"]]
      (sample_after "pass") = Done p'
    /\ python_initialized p' = true
    /\ init_calls (api_log p') = init_calls (api_log (sample_after "pass")).
Proof.
  eexists. split; [vm_compute; reflexivity|].
  apply (run_calls_never_reinitializes sample
           [[NapiString "1/0"]; []; [NapiString "pass"]]
           (sample_after "pass")).
  - vm_compute. reflexivity.
  - reflexivity.
Defined.

(** The sources run by one call. *)
Lemma executePythonSync_sources_step
    (R : PyRuntime) (info : list NapiValue) (p p' : Process R)
    (r : CallResult) :
  executePythonSync R info p = Done (r, p') ->
  sources_run (api_log p')
  = (if accepted info
     then match execution_of R p (Utf8Value (nth 0 info NapiUndefined)) with
          | Some _ => [c_str (Utf8Value (nth 0 info NapiUndefined))]
          | None => []
          end
     else []) ++ sources_run (api_log p).
Proof.
  intros H.
  destruct (accepted info) eqn:Hacc.
  - revert H. unfold execution_of, after_initialization, executePythonSync.
    rewrite argument_check_accepted, Hacc. cbn [negb].
    stage_cases; try discriminate; call_done; reflexivity.
  - rewrite (executePythonSync_rejected_unchanged R info p p' r H Hacc).
    reflexivity.
Qed.

Lemma run_calls_sources (R : PyRuntime) (calls : list (list NapiValue)) :
  forall p p' : Process R,
    run_calls R calls p = Done p' ->
    (sources_run (api_log p) <> [] -> python_initialized p = true) ->
    (exists ran,
       sources_run (api_log p') = rev ran ++ sources_run (api_log p)
       /\ sublist ran (submitted calls))
    /\ (sources_run (api_log p') <> [] -> python_initialized p' = true).
Proof.
  induction calls as [|info calls IH]; intros p p' H Hinv.
  - injection H as <-. split; [|exact Hinv].
    exists []. split; [reflexivity | constructor].
  - cbn [run_calls] in H.
    destruct (executePythonSync R info p) as [[r q]|] eqn:Hcall;
      [|discriminate H].
    pose proof (executePythonSync_sources_step R info p q r Hcall) as Hsrc.
    assert (Hq : sources_run (api_log q) <> [] -> python_initialized q = true).
    { destruct (accepted info) eqn:Hacc.
      - destruct (execution_of R p (Utf8Value (nth 0 info NapiUndefined)))
          eqn:Hex.
        + intros _.
          apply (executePythonSync_ran_flag R info p q r Hcall Hacc).
          rewrite Hex. eauto.
        + cbn in Hsrc. rewrite Hsrc. intros Hne.
          destruct (python_initialized p) eqn:Hflag.
          * apply (executePythonSync_skips_init R info p q r Hcall Hflag).
          * specialize (Hinv Hne). discriminate Hinv.
      - rewrite (executePythonSync_rejected_unchanged R info p q r Hcall Hacc).
        exact Hinv. }
    destruct (IH q p' H Hq) as [(ran & Hran & Hsub) Hflag'].
    split; [|exact Hflag'].
    cbn [submitted]. rewrite Hran, Hsrc.
    destruct (accepted info).
    + destruct (execution_of R p (Utf8Value (nth 0 info NapiUndefined))).
      * exists (c_str (Utf8Value (nth 0 info NapiUndefined)) :: ran).
        split; [|constructor; exact Hsub].
        cbn [rev]. rewrite <- app_assoc. reflexivity.
      * exists ran. split; [reflexivity|]. constructor. exact Hsub.
    + exists ran. split; [reflexivity | exact Hsub].
Qed.

(** X8: in a process that starts fresh, the sources handed to
    [PyRun_String] are, in order, some of the sources the calls
    submitted (each cut at its first NUL); and if any source was run the
    flag is up and the log holds exactly one successful bring-up: no
    source runs on a runtime that was not brought up. *)
Theorem run_calls_runs_only_submitted_sources
    (R : PyRuntime) (s0 : interp R) (calls : list (list NapiValue))
    (p : Process R) :
  run_calls R calls (fresh R s0) = Done p ->
  sublist (rev (sources_run (api_log p))) (submitted calls)
  /\ (sources_run (api_log p) <> [] ->
      python_initialized p = true
      /\ successful_inits (api_log p) = 1%nat).
Proof.
  intros H.
  destruct (run_calls_sources R calls (fresh R s0) p H) as [(ran & Hran & Hsub) Hflag].
  { intros Hne. exfalso. apply Hne. reflexivity. }
  cbn in Hran. rewrite app_nil_r in Hran.
  split.
  - rewrite Hran, rev_involutive. exact Hsub.
  - intros Hne. specialize (Hflag Hne). split; [exact Hflag|].
    pose proof (run_calls_flag_counts_inits R calls (fresh R s0) p H
                  (fresh_flag_counts_inits R s0)) as Hinv.
    unfold flag_counts_inits in Hinv. rewrite Hflag in Hinv. exact Hinv.
Qed.

Lemma run_calls_runs_only_submitted_sources_witness :
  sublist (rev (sources_run (api_log flaky_after_two_calls)))
    (submitted [[NapiString "pass"]; [NapiString "pass"]])
  /\ (sources_run (api_log flaky_after_two_calls) <> [] ->
      python_initialized flaky_after_two_calls = true
      /\ successful_inits (api_log flaky_after_two_calls) = 1%nat).
Proof.
  apply (run_calls_runs_only_submitted_sources flaky (0%nat, false)
           [[NapiString "pass"]; [NapiString "pass"]]
           flaky_after_two_calls).
  vm_compute. reflexivity.
Defined.

(** X9: calls that the argument check rejects leave no trace: a sequence
    of calls ends as the sequence of its accepted calls does. *)
Theorem run_calls_skips_rejected_calls
    (R : PyRuntime) (calls : list (list NapiValue)) :
  forall p : Process R,
    run_calls R calls p = run_calls R (List.filter accepted calls) p.
Proof.
  induction calls as [|info calls IH]; intros p; [reflexivity|].
  cbn [List.filter run_calls].
  destruct (accepted info) eqn:Hacc.
  - cbn [run_calls].
    destruct (executePythonSync R info p) as [[r q]|]; [apply IH | reflexivity].
  - unfold executePythonSync at 1. rewrite argument_check_accepted, Hacc.
    cbn [negb]. apply IH.
Qed.

(** * Further properties of the marshaller *)

(** X10: a Python string whose code points are all Unicode scalar values
    is converted to the UTF-8 encoding of its code points before the
    first U+0000, and the error indicator is left alone; any other string
    is converted to "[Decoding Error]" and the indicator is cleared.  A
    string of scalar values has an encoding, and one without U+0000 is
    converted whole. *)
Theorem PyObjectToNapiValue_string
    (LONG_BIT : Z) (u : PyStr) (err : PyErr) :
  PyObjectToNapiValue LONG_BIT (Some (PyUnicodeObject u)) err
  = (if forallb is_scalar_value u
     then (NapiString (default EmptyString (utf8_encode (before_nul u))),
           err)
     else (NapiString "[Decoding Error]", None))
  /\ (forallb is_scalar_value u = true ->
      is_Some (utf8_encode u) /\ is_Some (utf8_encode (before_nul u)))
  /\ (Forall (fun c => c <> 0) u -> before_nul u = u).
Proof.
  split; [|split].
  - cbn. destruct (utf8_encode u) as [bytes|] eqn:Hu.
    + rewrite (utf8_encode_before_nul u bytes Hu). cbn.
      destruct (forallb is_scalar_value u) eqn:Hs; [reflexivity|].
      apply utf8_encode_scalar in Hs. congruence.
    + apply utf8_encode_scalar in Hu. rewrite Hu. reflexivity.
  - intros Hs. destruct (utf8_encode u) as [bytes|] eqn:Hu.
    + rewrite (utf8_encode_before_nul u bytes Hu). eauto.
    + apply utf8_encode_scalar in Hu. congruence.
  - apply before_nul_without_nul.
Qed.

Lemma PyObjectToNapiValue_string_witness :
  PyObjectToNapiValue 64 (Some (PyUnicodeObject [104; 0; 105])) None
  = (NapiString "h", None)
  /\ is_Some (utf8_encode [104; 0; 105])
  /\ before_nul [104; 105] = [104; 105].
Proof.
  destruct (PyObjectToNapiValue_string 64 [104; 0; 105] None)
    as (H1 & H2 & _).
  destruct (PyObjectToNapiValue_string 64 [104; 105] None) as (_ & _ & H3).
  split; [exact H1|]. split.
  - apply H2. reflexivity.
  - apply H3. repeat constructor; discriminate.
Defined.

(** X11: with a [long] of 54 bits or more, every integer of the safe
    range is converted to the double that denotes it, and two safe
    integers are converted to the same number only if they are equal;
    this holds on a clean error indicator, and on any indicator for
    integers other than -1. *)
Theorem PyObjectToNapiValue_safe_integers
    (LONG_BIT : Z) (n m : Z) (err : PyErr) :
  54 <= LONG_BIT ->
  Double.is_safe_integer n = true ->
  Double.is_safe_integer m = true ->
  err = None \/ (n <> -1 /\ m <> -1) ->
  (exists d,
     PyObjectToNapiValue LONG_BIT (Some (PyLongObject n)) err
     = (NapiNumber d, err)
     /\ Double.to_Z d = Some n)
  /\ (fst (PyObjectToNapiValue LONG_BIT (Some (PyLongObject n)) err)
      = fst (PyObjectToNapiValue LONG_BIT (Some (PyLongObject m)) err)
      -> n = m).
Proof.
  intros HL Hn Hm Herr.
  assert (Hconv : forall k, Double.is_safe_integer k = true ->
            err = None \/ k <> -1 ->
            PyObjectToNapiValue LONG_BIT (Some (PyLongObject k)) err
            = (NapiNumber (Double.of_Z k), err)).
  { intros k Hk Hke. cbn.
    rewrite (safe_integer_fits_long LONG_BIT k HL Hk).
    destruct Hke as [-> | Hke].
    - cbn. rewrite andb_false_r. reflexivity.
    - apply Z.eqb_neq in Hke. rewrite Hke. reflexivity. }
  rewrite (Hconv n Hn) by tauto. rewrite (Hconv m Hm) by tauto.
  split.
  - exists (Double.of_Z n). split; [reflexivity | apply to_Z_of_Z; exact Hn].
  - cbn [fst]. intros [= H].
    apply (f_equal Double.to_Z) in H.
    rewrite !to_Z_of_Z in H by assumption. congruence.
Qed.

Lemma PyObjectToNapiValue_safe_integers_witness :
  (exists d,
     PyObjectToNapiValue 64 (Some (PyLongObject (-1))) None
     = (NapiNumber d, None)
     /\ Double.to_Z d = Some (-1))
  /\ (fst (PyObjectToNapiValue 64 (Some (PyLongObject (-1))) None)
      = fst (PyObjectToNapiValue 64
               (Some (PyLongObject Double.MAX_SAFE_INTEGER)) None)
      -> -1 = Double.MAX_SAFE_INTEGER).
Proof.
  apply (PyObjectToNapiValue_safe_integers 64 (-1) Double.MAX_SAFE_INTEGER
           None).
  - lia.
  - reflexivity.
  - reflexivity.
  - left. reflexivity.
Defined.

(** X12: where [long] has fewer than 54 bits, the safe integers from
    [2 ^ (LONG_BIT - 1)] on do not fit it: they are converted to the
    number 0 and the error indicator is cleared. *)
Theorem PyObjectToNapiValue_narrow_long
    (LONG_BIT : Z) (n : Z) (err : PyErr) :
  1 <= LONG_BIT < 54 ->
  2 ^ (LONG_BIT - 1) <= n <= Double.MAX_SAFE_INTEGER ->
  Double.is_safe_integer n = true
  /\ PyObjectToNapiValue LONG_BIT (Some (PyLongObject n)) err
     = (NapiNumber (S754_zero false), None).
Proof.
  intros HL Hn.
  assert (0 < 2 ^ (LONG_BIT - 1)) by (apply Z.pow_pos_nonneg; lia).
  split.
  - unfold Double.is_safe_integer. apply andb_true_iff.
    unfold Double.MAX_SAFE_INTEGER in *. split; apply Z.leb_le; lia.
  - cbn. unfold fits_long, LONG_MAX.
    replace (n <=? 2 ^ (LONG_BIT - 1) - 1) with false
      by (symmetry; apply Z.leb_gt; lia).
    rewrite andb_false_r. reflexivity.
Qed.

Lemma PyObjectToNapiValue_narrow_long_witness :
  Double.is_safe_integer (2 ^ 31) = true
  /\ PyObjectToNapiValue 32 (Some (PyLongObject (2 ^ 31)))
       (Some "KeyError"%string)
     = (NapiNumber (S754_zero false), None).
Proof.
  apply (PyObjectToNapiValue_narrow_long 32 (2 ^ 31)
           (Some "KeyError"%string)).
  - lia.
  - vm_compute. split; discriminate.
Defined.

(** X13: the value a Python object is converted to does not depend on the
    error indicator, except for the integer -1: with no error pending it
    is converted to the number -1, with an error pending on entry it is
    converted to 0 and that error is cleared. *)
Theorem PyObjectToNapiValue_value_and_pending_error
    (LONG_BIT : Z) (o : PyObject) (err1 err2 : PyErr) (e : string) :
  1 <= LONG_BIT ->
  (o <> PyLongObject (-1) ->
   fst (PyObjectToNapiValue LONG_BIT (Some o) err1)
   = fst (PyObjectToNapiValue LONG_BIT (Some o) err2))
  /\ PyObjectToNapiValue LONG_BIT (Some (PyLongObject (-1))) None
     = (NapiNumber (Double.of_Z (-1)), None)
  /\ Double.to_Z (Double.of_Z (-1)) = Some (-1)
  /\ PyObjectToNapiValue LONG_BIT (Some (PyLongObject (-1))) (Some e)
     = (NapiNumber (S754_zero false), None).
Proof.
  intros HL.
  assert (H1 : fits_long LONG_BIT (-1) = true).
  { unfold fits_long, LONG_MIN, LONG_MAX.
    assert (0 < 2 ^ (LONG_BIT - 1)) by (apply Z.pow_pos_nonneg; lia).
    apply andb_true_iff. split; apply Z.leb_le; lia. }
  split; [|split; [|split]].
  - intros Ho. destruct o as [| | |n|d|u|name]; try reflexivity.
    + cbn. destruct (fits_long LONG_BIT n); [|reflexivity].
      assert (E : (n =? -1) = false)
        by (apply Z.eqb_neq; intros ->; apply Ho; reflexivity).
      rewrite E. reflexivity.
    + cbn. destruct (utf8_encode u); reflexivity.
  - cbn. rewrite H1. reflexivity.
  - reflexivity.
  - cbn. rewrite H1. reflexivity.
Qed.

Lemma PyObjectToNapiValue_value_and_pending_error_witness :
  (PyLongObject 7 <> PyLongObject (-1) ->
   fst (PyObjectToNapiValue 64 (Some (PyLongObject 7)) None)
   = fst (PyObjectToNapiValue 64 (Some (PyLongObject 7))
            (Some "KeyError"%string)))
  /\ PyObjectToNapiValue 64 (Some (PyLongObject (-1))) None
     = (NapiNumber (Double.of_Z (-1)), None)
  /\ Double.to_Z (Double.of_Z (-1)) = Some (-1)
  /\ PyObjectToNapiValue 64 (Some (PyLongObject (-1)))
       (Some "KeyError"%string)
     = (NapiNumber (S754_zero false), None).
Proof.
  apply (PyObjectToNapiValue_value_and_pending_error 64 (PyLongObject 7)
           None (Some "KeyError"%string) "KeyError").
  lia.
Defined.

(** X14: the two sentinel strings are also the conversions of ordinary
    Python strings, so nothing computed from the converted value tells
    whether the Python object was of a supported type, nor whether a
    Python string could be encoded. *)
Theorem PyObjectToNapiValue_sentinels_are_ambiguous (LONG_BIT : Z) :
  (~ exists supported : NapiValue * PyErr -> bool,
       forall o,
         supported (PyObjectToNapiValue LONG_BIT (Some o) None)
         = is_supported o)
  /\ (~ exists encodable : NapiValue * PyErr -> bool,
        forall u,
          encodable (PyObjectToNapiValue LONG_BIT
                       (Some (PyUnicodeObject u)) None)
          = forallb is_scalar_value u).
Proof.
  split.
  - intros [f H].
    pose proof (H (PyOtherObject "list")) as H1.
    pose proof (H (PyUnicodeObject
                     (code_points "[Unsupported Python Type]"))) as H2.
    assert (E : PyObjectToNapiValue LONG_BIT
                  (Some (PyUnicodeObject
                           (code_points "[Unsupported Python Type]"))) None
                = PyObjectToNapiValue LONG_BIT
                    (Some (PyOtherObject "list")) None) by reflexivity.
    rewrite E, H1 in H2. discriminate H2.
  - intros [f H].
    pose proof (H [56448]) as H1.
    pose proof (H (code_points "[Decoding Error]")) as H2.
    assert (E : PyObjectToNapiValue LONG_BIT
                  (Some (PyUnicodeObject (code_points "[Decoding Error]")))
                  None
                = PyObjectToNapiValue LONG_BIT
                    (Some (PyUnicodeObject [56448])) None) by reflexivity.
    rewrite E, H1 in H2. discriminate H2.
Qed.
